(** * update_sheet.py: the calling-approval sheet synchroniser

    A shallow embedding of [update_sheet.py].  Text is a [string] whose
    characters are code points below 256; a pandas frame is a list of column
    labels with row-major cells; a worksheet is a grid of strings addressed
    from A1, read and written as gspread reads and writes it; each of the two
    flat files is the text that text-mode reading yields, with line feeds as
    line ends, or absent; the external calls of the synchronisation
    (credentials, network) may raise, which the world records per call
    site. *)

From Stdlib Require Import List String Ascii Bool Arith PeanoNat Lia.
Import ListNotations.
Open Scope string_scope.
Open Scope list_scope.

(** ** Exceptions and results *)

Inductive call_site :=
| GetCreds | Authorize | OpenForm | FormGetValues
| OpenProgress | ProgressGetValues | EraserUpdate | ProgressUpdate.

Inductive exn :=
| IndexError
| KeyError (label : string)
| ValueError
| AttributeError
| ParserError
| InvalidJSONError
| FileNotFoundError (path : string)
| ExternalError (site : call_site).

Inductive result (A : Type) :=
| Ok (a : A)
| Raise (e : exn).
Arguments Ok {A} a.
Arguments Raise {A} e.

Definition rbind {A B} (r : result A) (k : A -> result B) : result B :=
  match r with
  | Ok a => k a
  | Raise e => Raise e
  end.

Notation "'let?' x ':=' r 'in' k" := (rbind r (fun x => k))
  (at level 10, x name, r at level 100, k at level 200).

Fixpoint mapM {A B} (f : A -> result B) (l : list A) : result (list B) :=
  match l with
  | [] => Ok []
  | a :: l' => let? b := f a in let? bs := mapM f l' in Ok (b :: bs)
  end.

(** ** Python text primitives *)

Module Py.

Definition nl : ascii := "010"%char.

(** [str.isspace] on one character, for code points below 256. *)
Definition isspace (c : ascii) : bool :=
  let n := nat_of_ascii c in
  (((9 <=? n) && (n <=? 13)) || ((28 <=? n) && (n <=? 32))
   || (n =? 133) || (n =? 160))%nat.

Fixpoint lstrip (s : string) : string :=
  match s with
  | EmptyString => EmptyString
  | String c s' => if isspace c then lstrip s' else s
  end.

Fixpoint rstrip (s : string) : string :=
  match s with
  | EmptyString => EmptyString
  | String c s' =>
      match rstrip s' with
      | EmptyString => if isspace c then EmptyString else String c EmptyString
      | t => String c t
      end
  end.

Definition strip (s : string) : string := lstrip (rstrip s).

(** [str.lower] on one character, for code points below 256: the letters
    A-Z and the Latin-1 capitals other than the multiplication sign. *)
Definition lower_char (c : ascii) : ascii :=
  let n := nat_of_ascii c in
  if (((65 <=? n) && (n <=? 90))
      || ((192 <=? n) && (n <=? 222) && negb (n =? 215)))%nat
  then ascii_of_nat (n + 32) else c.

Fixpoint lower (s : string) : string :=
  match s with
  | EmptyString => EmptyString
  | String c s' => String (lower_char c) (lower s')
  end.

(** [s.split(sep)] for a non-empty separator: the occurrences of [sep] are
    found from the left and do not overlap.  [skip] counts the characters
    of a matched separator still to be passed over. *)
Fixpoint split_go (sep : string) (skip : nat) (s : string) : list string :=
  match s with
  | EmptyString => [EmptyString]
  | String c s' =>
      match skip with
      | S k => split_go sep k s'
      | O =>
          if prefix sep s
          then EmptyString :: split_go sep (String.length sep - 1) s'
          else match split_go sep 0 s' with
               | p :: ps => String c p :: ps
               | [] => [String c EmptyString]
               end
      end
  end.

Definition split (sep s : string) : list string := split_go sep 0 s.

(** [sep.join(l)] *)
Fixpoint join (sep : string) (l : list string) : string :=
  match l with
  | [] => EmptyString
  | [x] => x
  | x :: l' => (x ++ sep ++ join sep l')%string
  end.

(** [f.readlines()]: every line keeps its terminator, a last line without
    one is returned as it is. *)
Fixpoint readlines (s : string) : list string :=
  match s with
  | EmptyString => []
  | String c s' =>
      if Ascii.eqb c nl then String c EmptyString :: readlines s'
      else match readlines s' with
           | [] => [String c EmptyString]
           | l :: ls => String c l :: ls
           end
  end.

(** [f.writelines(l)] on a freshly truncated file. *)
Definition writelines (l : list string) : string := String.concat "" l.

(** [l[-k:]] *)
Definition last_k {A} (k : nat) (l : list A) : list A :=
  skipn (List.length l - k) l.

(** [l[-1]] *)
Definition get_last {A} (l : list A) : result A :=
  match rev l with
  | [] => Raise IndexError
  | x :: _ => Ok x
  end.

(** [l[-1] = x] *)
Definition set_last {A} (l : list A) (x : A) : result (list A) :=
  match l with
  | [] => Raise IndexError
  | _ => Ok (removelast l ++ [x])
  end.

(** [del l[1]] *)
Definition del1 {A} (l : list A) : result (list A) :=
  match l with
  | a :: _ :: rest => Ok (a :: rest)
  | _ => Raise IndexError
  end.

(** [s[0]] through the pandas [.str] accessor: a missing value when the
    string is empty. *)
Definition first_char (s : string) : option string :=
  match s with
  | EmptyString => None
  | String c _ => Some (String c EmptyString)
  end.

(** ["%-6s" % s] *)
Definition ljust (n : nat) (s : string) : string :=
  (s ++ String.concat "" (repeat " " (n - String.length s)))%string.

End Py.

(** ** pandas frames *)

(** A cell of an object column: a string, or the missing value ([None] and
    [NaN] alike). *)
Inductive cell :=
| Str (s : string)
| NaN.

Record DataFrame := {
  columns : list string;
  values : list (list cell)
}.

(** [cell == s] *)
Definition cell_eqb (c : cell) (s : string) : bool :=
  match c with
  | Str t => String.eqb t s
  | NaN => false
  end.

(** The cells of [row] standing under the label [c]. *)
Fixpoint pick (c : string) (cols : list string) (row : list cell) : list cell :=
  match cols, row with
  | l :: cols', x :: row' =>
      if String.eqb l c then x :: pick c cols' row' else pick c cols' row'
  | _, _ => []
  end.

Definition field (cols : list string) (row : list cell) (c : string) : cell :=
  hd NaN (pick c cols row).

(** [df[c]] where a Series is needed: a label that is absent raises
    [KeyError]; a label carried by several columns selects a frame, on which
    the operation that follows in the source raises [e2d]. *)
Definition getitem (e2d : exn) (df : DataFrame) (c : string) : result (list cell) :=
  match filter (String.eqb c) (columns df) with
  | [] => Raise (KeyError c)
  | [_] => Ok (map (fun row => field (columns df) row c) (values df))
  | _ => Raise e2d
  end.

Definition set_cell (cols : list string) (c : string) (v : cell)
  (row : list cell) : list cell :=
  if existsb (String.eqb c) cols
  then map (fun lx => if String.eqb (fst lx) c then v else snd lx) (combine cols row)
  else row ++ [v].

(** [df[c] = vs]: every column labelled [c] takes the new values; a new
    label is appended as the last column. *)
Definition setitem (df : DataFrame) (c : string) (vs : list cell) : DataFrame :=
  {| columns := if existsb (String.eqb c) (columns df) then columns df
                else columns df ++ [c];
     values := map (fun rv => set_cell (columns df) c (snd rv) (fst rv))
                   (combine (values df) vs) |}.

(** [df[c] = v] for a scalar [v] *)
Definition setitem_scalar (df : DataFrame) (c : string) (v : cell) : DataFrame :=
  setitem df c (map (fun _ => v) (values df)).

Definition pad_row (w : nat) (row : list string) : list cell :=
  map Str row ++ repeat NaN (w - List.length row).

(** [pd.DataFrame(data, columns=cols)] for a list of rows: the width of the
    data is that of its longest row, shorter rows are filled with missing
    values, and a width other than the number of labels is refused. *)
Definition mk_frame (data : list (list string)) (cols : list string)
  : result DataFrame :=
  match data with
  | [] => Ok {| columns := cols; values := [] |}
  | _ =>
      let w := list_max (map (@List.length string) data) in
      if (w =? List.length cols)%nat
      then Ok {| columns := cols; values := map (pad_row w) data |}
      else Raise ValueError
  end.

Fixpoint assoc (k : string) (m : list (string * string)) : option string :=
  match m with
  | [] => None
  | (k', v) :: m' => if String.eqb k' k then Some v else assoc k m'
  end.

(** [df.rename(columns=m)]: a label the mapping does not hold stays. *)
Definition rename_labels (m : list (string * string)) (cols : list string)
  : list string :=
  map (fun c => match assoc c m with Some c' => c' | None => c end) cols.

Definition rename (df : DataFrame) (m : list (string * string)) : DataFrame :=
  {| columns := rename_labels m (columns df); values := values df |}.

(** [.str.strip().str.lower().str[0]] on one cell *)
Definition str_strip_lower_0 (c : cell) : cell :=
  match c with
  | NaN => NaN
  | Str s => match Py.first_char (Py.lower (Py.strip s)) with
             | Some t => Str t
             | None => NaN
             end
  end.

(** [df.loc[mask, labels]]: the rows whose mask is true, and for each label
    in turn the columns that carry it; a label no column carries raises
    [KeyError]. *)
Definition loc (df : DataFrame) (mask : list bool) (labels : list string)
  : result DataFrame :=
  let? _ := mapM (fun k => if existsb (String.eqb k) (columns df) then Ok tt
                          else Raise (KeyError k)) labels in
  Ok {| columns := flat_map (fun k => filter (String.eqb k) (columns df)) labels;
        values := map (fun rm => flat_map (fun k => pick k (columns df) (fst rm)) labels)
                      (filter (fun rm => snd rm) (combine (values df) mask)) |}.

(** ** The program: frames *)

Definition simplified_name_map : list (string * string) :=
  [ ("What is the Name of the Proposed Calling (please refer to General Handbook (https://www.churchofjesuschrist.org/study/manual/general-handbook/30-callings-in-the-church?lang=eng#title_number125) and Callings and Trainings (https://www.churchofjesuschrist.org/callings?lang=eng) for a reference on duties and authorized names for callings)?", "Calling");
    ("Full Name of the Person Proposed for the Calling:", "PersonToCall");
    ("Will this Require they be Released from a Current Calling?", "ReleaseRequired");
    ("Name of the Proposed Organization to which the Person would be Called:", "Organization");
    ("Once Again, Will this Require they be Released from a Current Calling?", "ReleaseRequired2");
    ("If You Know, from which Organization are you Requesting this Person?", "CurrentOrganization");
    ("Name of Person Submitting the Form", "FormSubmittedBy");
    ("Ideal Date for Proposed Person to Begin Service", "IdealStartDate");
    ("Does this Proposal Require Someone Else be Released from the Calling You are Asking to Fill?", "ReleaseCurrentlyServing");
    ("Name of the Person Who Needs to be Released from this Calling:", "CurrentlyServing");
    ("Is this Person Moving?", "Moving?");
    ("Date they are Moving:", "MovingDate");
    ("Any Additional Comments:", "Comments");
    ("Calling Approval ", "BishopApproval");
    ("Calling extended and accepted", "ExtendedAndAccepted") ].

Definition keeps : list string :=
  [ "DateRequested"; "PersonToCall"; "Calling"; "Organization";
    "FormSubmittedBy"; "IdealStartDate"; "BishopApproval";
    "ExtendedAndAccepted"; "Sustained"; "Set Apart" ].

Definition get_filtered_data (calling_df : DataFrame) : result DataFrame :=
  let? approved := getitem ValueError calling_df "cleaned_approval_text" in
  let? recorded := getitem ValueError calling_df "Recorded" in
  let mask := map (fun ar => cell_eqb (fst ar) "y" && cell_eqb (snd ar) "")
                  (combine approved recorded) in
  loc calling_df mask keeps.

Section Frames.

(** [pd.to_datetime(...).dt.strftime("%m/%d/%Y")] on one string: the
    formatted date, a missing value for a blank, or the parser's error. *)
Variable to_mdY : string -> result cell.

Definition date_cell (c : cell) : result cell :=
  match c with
  | NaN => Ok NaN
  | Str s => to_mdY s
  end.

Definition make_callings_data (form_data : list (list string)) : result DataFrame :=
  let? header := match form_data with
                 | [] => Raise IndexError
                 | h :: _ => Ok h
                 end in
  let? df := mk_frame (tl form_data) header in
  let calling_df := rename df simplified_name_map in
  let calling_df := setitem_scalar calling_df "ScheduledMeetingWith" (Str "") in
  let? stamps := getitem ValueError calling_df "Timestamp" in
  let? dates := mapM date_cell stamps in
  let calling_df := setitem calling_df "DateRequested" dates in
  let? approval := getitem AttributeError calling_df "BishopApproval" in
  let calling_df :=
    setitem calling_df "cleaned_approval_text" (map str_strip_lower_0 approval) in
  Ok calling_df.

End Frames.

(** ** Worksheets

    A worksheet is a grid of strings addressed from A1; a cell the lists do
    not reach is blank. *)

Definition grid := list (list string).

Definition cell_at (g : grid) (i j : nat) : string := nth j (nth i g []) "".

(** The length of [l] without its trailing blank elements. *)
Fixpoint trim_len {A} (blank : A -> bool) (l : list A) : nat :=
  match l with
  | [] => 0
  | a :: l' =>
      match trim_len blank l' with
      | 0 => if blank a then 0 else 1
      | S n => S (S n)
      end
  end.

Definition row_width (r : list string) : nat := trim_len (String.eqb "") r.
Definition nrows (g : grid) : nat := trim_len (fun r => (row_width r =? 0)%nat) g.
Definition ncols (g : grid) : nat := list_max (map row_width g).

(** [worksheet.get_values()]: the service leaves out trailing blank rows and
    the trailing blank cells of every row, and the client fills the rows up
    to the longest one; a blank sheet gives the empty list. *)
Definition get_values (g : grid) : list (list string) :=
  map (fun i => map (fun j => cell_at g i j) (seq 0 (ncols g))) (seq 0 (nrows g)).

Definition overlay_row (new old : list string) : list string :=
  new ++ skipn (List.length new) old.

(** [worksheet.update(vals)]: the values are written from A1 on, row by row;
    a cell outside the written rows keeps what it holds. *)
Fixpoint overlay (new old : grid) : grid :=
  match new with
  | [] => old
  | r :: new' => overlay_row r (hd [] old) :: overlay new' (tl old)
  end.

(** The request body of an update: a missing value has no JSON encoding. *)
Definition json_cell (c : cell) : result string :=
  match c with
  | Str s => Ok s
  | NaN => Raise InvalidJSONError
  end.

Definition json_values (rows : list (list cell)) : result (list (list string)) :=
  mapM (mapM json_cell) rows.

(** [[df.columns.values.tolist()] + df.values.tolist()] *)
Definition frame_table (df : DataFrame) : list (list cell) :=
  map Str (columns df) :: values df.

(** The blanked copy [empty_sheet] builds from the values it read. *)
Definition eraser (sheet_values : list (list string)) : result DataFrame :=
  let? header := match sheet_values with
                 | [] => Raise IndexError
                 | h :: _ => Ok h
                 end in
  let? sheet_df := mk_frame (tl sheet_values) header in
  Ok (fold_left (fun e c => setitem_scalar e c (Str "")) (columns sheet_df) sheet_df).

(** ** The world and its monad *)

Record world := {
  form_sheet : grid;
  progress_sheet : grid;
  log_txt : option string;
  readme_md : option string;
  fails : call_site -> bool;
  asctime : string
}.

Definition set_progress (g : grid) (w : world) : world :=
  {| form_sheet := form_sheet w; progress_sheet := g; log_txt := log_txt w;
     readme_md := readme_md w; fails := fails w; asctime := asctime w |}.

Definition set_log (s : string) (w : world) : world :=
  {| form_sheet := form_sheet w; progress_sheet := progress_sheet w;
     log_txt := Some s; readme_md := readme_md w; fails := fails w;
     asctime := asctime w |}.

Definition set_readme (s : string) (w : world) : world :=
  {| form_sheet := form_sheet w; progress_sheet := progress_sheet w;
     log_txt := log_txt w; readme_md := Some s; fails := fails w;
     asctime := asctime w |}.


(** A computation runs on the world and leaves a world behind also when it
    raises. *)
Definition M (A : Type) : Type := world -> result A * world.

Definition ret {A} (a : A) : M A := fun w => (Ok a, w).
Definition throw {A} (e : exn) : M A := fun w => (Raise e, w).
Definition bind {A B} (m : M A) (k : A -> M B) : M B :=
  fun w => match m w with
           | (Ok a, w') => k a w'
           | (Raise e, w') => (Raise e, w')
           end.
Definition lift {A} (r : result A) : M A := fun w => (r, w).

Notation "x <- m ;; k" := (bind m (fun x => k))
  (at level 61, m at next level, right associativity).
Notation "m ;; k" := (bind m (fun _ => k))
  (at level 61, right associativity).

(** [try: body except: handler] with a bare [except]. *)
Definition try_except (body handler : M unit) : M unit :=
  fun w => match body w with
           | (Ok a, w') => (Ok a, w')
           | (Raise _, w') => handler w'
           end.

(** A call that leaves the program: it raises when the world says so. *)
Definition external (site : call_site) : M unit :=
  fun w => if fails w site then (Raise (ExternalError site), w) else (Ok tt, w).

Definition progress_get_values : M (list (list string)) :=
  external ProgressGetValues ;; fun w => (Ok (get_values (progress_sheet w)), w).

(** [worksheet.update(vals)] on the progress sheet.  A call that raises is
    taken not to have written; what a call that raises after the service
    applied it leaves behind is outside this model. *)
Definition progress_update (site : call_site) (vals : list (list cell)) : M unit :=
  body <- lift (json_values vals) ;;
  external site ;;
  fun w => (Ok tt, set_progress (overlay body (progress_sheet w)) w).

Definition form_get_values : M (list (list string)) :=
  external FormGetValues ;; fun w => (Ok (get_values (form_sheet w)), w).

(** ** The program: sheets, log and status document *)

Definition empty_sheet : M unit :=
  sheet_values <- progress_get_values ;;
  e <- lift (eraser sheet_values) ;;
  progress_update EraserUpdate (frame_table e).

Definition read_lines (path : string) (file : world -> option string)
  : M (list string) :=
  fun w => match file w with
           | Some s => (Ok (Py.readlines s), w)
           | None => (Raise (FileNotFoundError path), w)
           end.

Definition write_log (lines : list string) : M unit :=
  fun w => (Ok tt, set_log (Py.writelines lines) w).

Definition write_readme (lines : list string) : M unit :=
  fun w => (Ok tt, set_readme (Py.writelines lines) w).

Definition trim_logs : M unit :=
  logs <- read_lines "log.txt" log_txt ;;
  let logs := if (21 <=? List.length logs)%nat then Py.last_k 20 logs else logs in
  write_log logs.

(** The line [add_log_to_readme] derives from a log line. *)
Definition format_entry (line : string) : result string :=
  let most_recent_log_entry := map Py.strip (Py.split "  " line) in
  let? most_recent_log_entry := Py.del1 most_recent_log_entry in
  Ok ("- " ++ Py.join " UTC: " most_recent_log_entry)%string.

Definition add_log_to_readme : M unit :=
  readme <- read_lines "README.md" readme_md ;;
  logs <- read_lines "log.txt" log_txt ;;
  line <- lift (Py.get_last logs) ;;
  update <- lift (format_entry line) ;;
  readme <- lift (Py.set_last readme update) ;;
  write_readme readme.

(** [logging.basicConfig(filename="log.txt", ...)]: the handler opens the
    file for appending, which creates it. *)
Definition basicConfig : M unit :=
  fun w => (Ok tt, set_log (match log_txt w with Some s => s | None => "" end) w).

(** One record in the format ["%(asctime)s  %(levelname)-6s %(message)s"]. *)
Definition log_record (time levelname message : string) : string :=
  (time ++ "  " ++ Py.ljust 6 levelname ++ " " ++ message ++ String Py.nl "")%string.

Definition logger (levelname message : string) : M unit :=
  fun w => (Ok tt,
            set_log (match log_txt w with Some s => s | None => "" end
                     ++ log_record (asctime w) levelname message)%string w).

Section Main.

Variable to_mdY : string -> result cell.

(** The body of the [try] block of [main]. *)
Definition sync : M unit :=
  external GetCreds ;;
  external Authorize ;;
  external OpenForm ;;
  form_data <- form_get_values ;;
  calling_df <- lift (make_callings_data to_mdY form_data) ;;
  updated_df <- lift (get_filtered_data calling_df) ;;
  external OpenProgress ;;
  empty_sheet ;;
  progress_update ProgressUpdate (frame_table updated_df) ;;
  logger "INFO" "Job successfully completed".

Definition main : M unit :=
  basicConfig ;;
  try_except sync (logger "ERROR" "Job failed") ;;
  trim_logs ;;
  add_log_to_readme.

End Main.

(** ** Specification vocabulary *)

(** The text holds a line feed. *)
Fixpoint has_nl (s : string) : bool :=
  match s with
  | EmptyString => false
  | String c s' => Ascii.eqb c Py.nl || has_nl s'
  end.

(** A line feed occurs at most as the last character. *)
Fixpoint nl_only_last (s : string) : bool :=
  match s with
  | EmptyString => true
  | String c s' =>
      if Ascii.eqb c Py.nl then String.eqb s' "" else nl_only_last s'
  end.

(** A line that ends with its only line feed. *)
Fixpoint terminated (s : string) : bool :=
  match s with
  | EmptyString => false
  | String c s' =>
      if Ascii.eqb c Py.nl then String.eqb s' "" else terminated s'
  end.

(** A non-empty line without a line feed: the last line of a file that does
    not end with one. *)
Definition open_line (s : string) : bool :=
  negb (String.eqb s "") && negb (has_nl s).

(** The shape of a list of lines as [readlines] returns it. *)
Fixpoint lines_ok (l : list string) : bool :=
  match l with
  | [] => true
  | [x] => terminated x || open_line x
  | x :: l' => terminated x && lines_ok l'
  end.

(** Every row of the frame has one cell per column. *)
Definition wf (df : DataFrame) : Prop :=
  Forall (fun row => List.length row = List.length (columns df)) (values df).

(** The row predicate of the Row Filter. *)
Definition selected (cols : list string) (row : list cell) : bool :=
  cell_eqb (field cols row "cleaned_approval_text") "y"
  && cell_eqb (field cols row "Recorded") "".

(** The labels [get_filtered_data] looks up. *)
Definition needed : list string := "cleaned_approval_text" :: "Recorded" :: keeps.

(** Exactly one column carries the label. *)
Definition carried_once (cols : list string) (k : string) : Prop :=
  List.length (filter (String.eqb k) cols) = 1.


(** The labels of a frame after [df[c] = ...]. *)
Definition labels_with (cols : list string) (c : string) : list string :=
  if existsb (String.eqb c) cols then cols else cols ++ [c].

(** Every column labelled [c] holds [v] in every row, and there is one. *)
Definition column_is (df : DataFrame) (c : string) (v : cell) : Prop :=
  In c (columns df) /\
  forall r, In r (values df) ->
    field (columns df) r c = v /\ Forall (eq v) (pick c (columns df) r).


(** The element at position [k] is blank, or [l] does not reach [k]. *)
Definition blank_at {A} (blank : A -> bool) (l : list A) (k : nat) : bool :=
  match nth_error l k with
  | Some a => blank a
  | None => true
  end.


(** The table [empty_sheet] writes: the header it read over blank rows. *)
Definition blanked (h : list string) (rows : list (list string))
  : list (list string) :=
  h :: repeat (repeat "" (List.length h)) (List.length rows).

(** The table [main] writes to the progress sheet, from the values of the
    form sheet. *)
Definition sync_table (to_mdY : string -> result cell)
  (form_data : list (list string)) : result (list (list string)) :=
  let? calling_df := make_callings_data to_mdY form_data in
  let? updated_df := get_filtered_data calling_df in
  json_values (frame_table updated_df).

(** The cell lies within the rows of the table. *)
Definition within (t : list (list string)) (i j : nat) : bool :=
  ((i <? List.length t) && (j <? List.length (nth i t [])))%nat.


(** [main] up to the end of its [try] statement. *)
Definition guarded_sync (to_mdY : string -> result cell) : M unit :=
  basicConfig ;; try_except (sync to_mdY) (logger "ERROR" "Job failed").

(** What [main] does after its [try] statement. *)
Definition housekeeping : M unit := trim_logs ;; add_log_to_readme.


(** ** Sample data *)

Module Sample.

(** A date formatter for the samples: a blank is a missing date, one text
    does not parse, anything else is its own date. *)
Definition to_mdY (s : string) : result cell :=
  if String.eqb s "" then Ok NaN
  else if String.eqb s "not a date" then Raise ParserError
  else Ok (Str s).

Definition header : list string :=
  [ "Timestamp"; "Full Name of the Person Proposed for the Calling:";
    "Calling"; "Organization"; "Name of Person Submitting the Form";
    "Ideal Date for Proposed Person to Begin Service"; "Calling Approval ";
    "Calling extended and accepted"; "Sustained"; "Set Apart"; "Recorded" ].

Definition rows : list (list string) :=
  [ ["04/10/2022"; "Ann"; "Teacher"; "Primary"; "Bob"; "May"; " Yes";
     ""; ""; ""; ""];
    ["04/11/2022"; "Cat"; "Clerk"; "Ward"; "Bob"; "May"; "yes";
     "x"; ""; ""; "done"];
    ["04/12/2022"; "Dan"; "Pianist"; "Primary"; "Eve"; "June"; "  ";
     ""; ""; ""; ""];
    ["04/13/2022"; "Fay"; "Greeter"; "Ward"; "Eve"; "June"; "Y";
     ""; "x"; ""; ""] ].

Definition form : grid := header :: rows.

(** A progress sheet one column wider than the table the program writes,
    with five data rows. *)
Definition progress : grid :=
  [ ["DateRequested"; "PersonToCall"; "Calling"; "Organization";
     "FormSubmittedBy"; "IdealStartDate"; "BishopApproval";
     "ExtendedAndAccepted"; "Sustained"; "Set Apart"; "Notes"];
    ["01/01/2022"; "Gus"; "Teacher"; "Primary"; "Bob"; "May"; "y"; ""; ""; "";
     "ask again"];
    ["01/02/2022"; "Hal"]; ["01/03/2022"; "Ida"]; ["01/04/2022"; "Jo"];
    ["01/05/2022"; "Kim"] ].

Definition line (k : nat) : string :=
  String (ascii_of_nat (65 + k)) (String Py.nl "").

(** A log of 25 lines. *)
Definition log25 : string := Py.writelines (map line (seq 0 25)).

Definition status : string :=
  ("# Status" ++ String Py.nl ("- never run" ++ String Py.nl ""))%string.

Definition no_fault (site : call_site) : bool := false.


Definition w : world :=
  {| form_sheet := form; progress_sheet := progress; log_txt := Some log25;
     readme_md := Some status; fails := no_fault;
     asctime := "2024-01-01 10:00:00,123" |}.

(** The world in which the log ends with the line of the specification. *)
Definition w_entry : world :=
  set_log (log25 ++ "2024-01-01 10:00:00  INFO   Job successfully completed") w.

Definition frame : DataFrame :=
  Eval vm_compute in
    match make_callings_data to_mdY form with
    | Ok df => df
    | Raise _ => {| columns := []; values := [] |}
    end.

Definition table : list (list string) :=
  Eval vm_compute in
    match sync_table to_mdY form with
    | Ok t => t
    | Raise _ => []
    end.

Definition synced : world := snd (sync to_mdY w).
Definition synced_again : world := snd (sync to_mdY synced).
Definition cleared : world := snd (empty_sheet w).
Definition mirrored : world := snd (add_log_to_readme w_entry).

End Sample.


(** Every space of the text is followed by a character other than a space:
    the text holds no two-space separator and does not end with a space. *)
Fixpoint single_spaced (t : string) : bool :=
  match t with
  | EmptyString => true
  | String c t' =>
      (if Ascii.eqb c " "
       then match t' with
            | EmptyString => false
            | String d _ => negb (Ascii.eqb d " ")
            end
       else true)
      && single_spaced t'
  end.


(** ** More sample data *)

Module MoreSamples.

(** The sample form with a blank time stamp in its first data row. *)
Definition form_missing_date : grid :=
  Sample.header :: ("" :: tl (hd [] Sample.rows)) :: tl Sample.rows.

(** The sample world with that form, with a blank progress sheet, and with
    an empty log. *)
Definition w_missing_date : world :=
  {| form_sheet := form_missing_date; progress_sheet := Sample.progress;
     log_txt := Some Sample.log25; readme_md := Some Sample.status;
     fails := Sample.no_fault; asctime := "2024-01-01 10:00:00,123" |}.
Definition w_blank : world := set_progress [] Sample.w.
Definition w_empty_log : world := set_log "" Sample.w.

Definition first_row : list cell := hd [] (values Sample.frame).

End MoreSamples.

(** A form sheet that carries the calling twice: once under the question of
    the form, which the mapper renames to [Calling], and once under a column
    already named [Calling]. *)
Module Duplicate.

Definition header : list string :=
  Sample.header ++ [fst (hd ("", "") simplified_name_map)].

Definition rows : list (list string) :=
  map (fun r => r ++ ["Chorister"]) Sample.rows.

Definition form : grid := header :: rows.

Definition frame : DataFrame :=
  Eval vm_compute in
    match make_callings_data Sample.to_mdY form with
    | Ok df => df
    | Raise _ => {| columns := []; values := [] |}
    end.

Definition out : DataFrame :=
  Eval vm_compute in
    match get_filtered_data frame with
    | Ok df => df
    | Raise _ => {| columns := []; values := [] |}
    end.

End Duplicate.


(** * Properties *)

(** ** Text *)

Lemma concat_nil_cons (x : string) (l : list string) :
  String.concat "" (x :: l) = (x ++ String.concat "" l)%string.
Proof.
  destruct l as [|y l]; simpl.
  - induction x; simpl; congruence.
  - reflexivity.
Qed.

Lemma string_app_nil_r (s : string) : (s ++ "")%string = s.
Proof. induction s; simpl; congruence. Qed.

Lemma string_app_assoc (a b c : string) :
  ((a ++ b) ++ c)%string = (a ++ (b ++ c))%string.
Proof. induction a; simpl; congruence. Qed.

Lemma writelines_cons (x : string) (l : list string) :
  Py.writelines (x :: l) = (x ++ Py.writelines l)%string.
Proof. apply concat_nil_cons. Qed.


(** Writing back the lines that were read restores the text. *)
Lemma writelines_readlines (s : string) : Py.writelines (Py.readlines s) = s.
Proof.
  induction s as [|c s IH]; [reflexivity|].
  simpl. destruct (Ascii.eqb c Py.nl) eqn:E.
  - rewrite writelines_cons, IH. reflexivity.
  - destruct (Py.readlines s) as [|l ls] eqn:R.
    + simpl in IH. subst s. reflexivity.
    + rewrite writelines_cons in *. simpl. rewrite IH. reflexivity.
Qed.

Lemma has_nl_app (a b : string) :
  has_nl (a ++ b) = has_nl a || has_nl b.
Proof.
  induction a as [|c a IH]; simpl; [reflexivity|].
  rewrite IH. apply orb_assoc.
Qed.

Lemma terminated_nl_only_last (s : string) :
  terminated s = true -> nl_only_last s = true.
Proof.
  induction s as [|c s IH]; simpl; [discriminate|].
  destruct (Ascii.eqb c Py.nl); auto.
Qed.

Lemma no_nl_nl_only_last (s : string) :
  has_nl s = false -> nl_only_last s = true.
Proof.
  induction s as [|c s IH]; simpl; [reflexivity|].
  destruct (Ascii.eqb c Py.nl); simpl; [discriminate|auto].
Qed.

Lemma readlines_terminated (x s : string) :
  terminated x = true -> Py.readlines (x ++ s) = x :: Py.readlines s.
Proof.
  induction x as [|c x IH]; simpl; [discriminate|].
  destruct (Ascii.eqb c Py.nl) eqn:E.
  - intros H. apply String.eqb_eq in H. subst x. reflexivity.
  - intros H. rewrite (IH H). reflexivity.
Qed.

Lemma readlines_open (u : string) :
  open_line u = true -> Py.readlines u = [u].
Proof.
  unfold open_line. induction u as [|c u IH]; simpl; [discriminate|].
  destruct (Ascii.eqb c Py.nl); simpl; [discriminate|].
  intros H. destruct u as [|d u]; [reflexivity|].
  rewrite IH; [reflexivity|]. simpl. exact H.
Qed.

Lemma readlines_writelines (l : list string) :
  lines_ok l = true -> Py.readlines (Py.writelines l) = l.
Proof.
  induction l as [|x l IH]; [reflexivity|].
  destruct l as [|y l].
  - cbn [lines_ok]. intros H. apply orb_true_iff in H as [H|H].
    + unfold Py.writelines. simpl.
      rewrite <- (string_app_nil_r x) at 1.
      rewrite (readlines_terminated _ _ H). reflexivity.
    + apply readlines_open, H.
  - intros H. change (lines_ok (x :: y :: l)) with (terminated x && lines_ok (y :: l)) in H.
    apply andb_true_iff in H as [Hx Hl].
    rewrite writelines_cons, (readlines_terminated _ _ Hx), (IH Hl).
    reflexivity.
Qed.

Lemma lines_ok_cons (x : string) (l : list string) :
  terminated x = true -> lines_ok l = true -> lines_ok (x :: l) = true.
Proof.
  intros Hx Hl. destruct l as [|y l].
  - simpl. rewrite Hx. reflexivity.
  - change (terminated x && lines_ok (y :: l) = true). rewrite Hx, Hl. reflexivity.
Qed.

Lemma terminated_cons_no_nl (c : ascii) (s : string) :
  Ascii.eqb c Py.nl = false -> terminated (String c s) = terminated s.
Proof. intros E. simpl. rewrite E. reflexivity. Qed.

Lemma readlines_ok (s : string) : lines_ok (Py.readlines s) = true.
Proof.
  induction s as [|c s IH]; [reflexivity|].
  simpl. destruct (Ascii.eqb c Py.nl) eqn:E.
  - apply lines_ok_cons; [simpl; rewrite E; reflexivity | exact IH].
  - destruct (Py.readlines s) as [|l ls] eqn:R.
    + simpl. rewrite E. unfold open_line. simpl. rewrite E. reflexivity.
    + destruct ls as [|l2 ls].
      * cbn [lines_ok] in *. rewrite terminated_cons_no_nl by exact E.
        unfold open_line in *. simpl. rewrite E. simpl.
        destruct (terminated l); [reflexivity|]. simpl in *.
        apply andb_true_iff in IH as [_ IH]. exact IH.
      * change (lines_ok (l :: l2 :: ls)) with (terminated l && lines_ok (l2 :: ls)) in IH.
        change (terminated (String c l) && lines_ok (l2 :: ls) = true).
        rewrite terminated_cons_no_nl by exact E. exact IH.
Qed.

Lemma lines_ok_tail (x : string) (l : list string) :
  lines_ok (x :: l) = true -> lines_ok l = true.
Proof.
  destruct l as [|y l]; [reflexivity|].
  change (lines_ok (x :: y :: l)) with (terminated x && lines_ok (y :: l)).
  intros H. apply andb_true_iff in H. tauto.
Qed.

Lemma lines_ok_skipn (n : nat) (l : list string) :
  lines_ok l = true -> lines_ok (skipn n l) = true.
Proof.
  revert l. induction n as [|n IH]; intros l H; [exact H|].
  destruct l as [|x l]; [reflexivity|].
  simpl. apply IH. eapply lines_ok_tail, H.
Qed.

Lemma lines_ok_removelast (l : list string) :
  lines_ok l = true -> Forall (fun x => terminated x = true) (removelast l).
Proof.
  induction l as [|x l IH]; intros H; [constructor|].
  destruct l as [|y l]; [constructor|].
  change (lines_ok (x :: y :: l)) with (terminated x && lines_ok (y :: l)) in H.
  apply andb_true_iff in H as [Hx Hl].
  change (removelast (x :: y :: l)) with (x :: removelast (y :: l)).
  constructor; auto.
Qed.

Lemma lines_ok_snoc (l : list string) (u : string) :
  Forall (fun x => terminated x = true) l -> open_line u = true ->
  lines_ok (l ++ [u]) = true.
Proof.
  intros Hl Hu. induction Hl as [|x l Hx Hl IH].
  - simpl. rewrite Hu. apply orb_true_r.
  - rewrite <- app_comm_cons. apply lines_ok_cons; assumption.
Qed.

Lemma lines_ok_all (l : list string) :
  lines_ok l = true -> Forall (fun x => nl_only_last x = true) l.
Proof.
  induction l as [|x l IH]; intros H; [constructor|].
  constructor.
  - destruct l as [|y l].
    + cbn [lines_ok] in H. apply orb_true_iff in H as [H|H].
      * apply terminated_nl_only_last, H.
      * unfold open_line in H. apply andb_true_iff in H as [_ H].
        apply no_nl_nl_only_last. destruct (has_nl x); [discriminate|reflexivity].
    + change (lines_ok (x :: y :: l)) with (terminated x && lines_ok (y :: l)) in H.
      apply andb_true_iff in H as [H _]. apply terminated_nl_only_last, H.
  - apply IH. eapply lines_ok_tail, H.
Qed.

Lemma split_go_nonempty (sep : string) (k : nat) (s : string) :
  Py.split_go sep k s <> [].
Proof.
  revert k. induction s as [|c s IH]; intros k; cbn [Py.split_go];
    [discriminate|].
  destruct k as [|k]; [|apply IH].
  destruct (prefix sep (String c s)); [discriminate|].
  destruct (Py.split_go sep 0 s); discriminate.
Qed.

Lemma prefix_app (a b : string) : prefix a (a ++ b) = true.
Proof.
  induction a as [|c a IH]; simpl; [destruct b; reflexivity|].
  destruct (ascii_dec c c); [exact IH|congruence].
Qed.


Lemma nl_only_last_tail (c : ascii) (s : string) :
  nl_only_last (String c s) = true -> nl_only_last s = true.
Proof.
  simpl. destruct (Ascii.eqb c Py.nl); [|auto].
  intros H. apply String.eqb_eq in H. subst s. reflexivity.
Qed.

Lemma split_go_nl (sep : string) (k : nat) (s : string) :
  nl_only_last s = true ->
  Forall (fun p => nl_only_last p = true) (Py.split_go sep k s).
Proof.
  revert k. induction s as [|c s IH]; intros k H.
  - repeat constructor.
  - pose proof (nl_only_last_tail _ _ H) as Ht. cbn [Py.split_go].
    destruct k as [|k]; [|apply IH, Ht].
    destruct (prefix sep (String c s)).
    + constructor; [reflexivity | apply IH, Ht].
    + specialize (IH 0 Ht).
      destruct (Py.split_go sep 0 s) as [|p ps] eqn:E.
      * exfalso. eapply split_go_nonempty, E.
      * inversion IH as [|? ? Hp Hps]; subst. constructor; [|exact Hps].
        simpl in *. destruct (Ascii.eqb c Py.nl); [|exact Hp].
        apply String.eqb_eq in H. subst s. simpl in E. inversion E. reflexivity.
Qed.

Lemma rstrip_no_nl (p : string) :
  nl_only_last p = true -> has_nl (Py.rstrip p) = false.
Proof.
  induction p as [|c p IH]; intros H; [reflexivity|].
  pose proof (nl_only_last_tail _ _ H) as Ht. specialize (IH Ht).
  simpl in *. destruct (Ascii.eqb c Py.nl) eqn:E.
  - apply String.eqb_eq in H. subst p. simpl.
    apply Ascii.eqb_eq in E. subst c. reflexivity.
  - destruct (Py.rstrip p) as [|d t].
    + destruct (Py.isspace c); simpl; rewrite ?E; reflexivity.
    + simpl in *. rewrite E. exact IH.
Qed.

Lemma lstrip_no_nl (s : string) :
  has_nl s = false -> has_nl (Py.lstrip s) = false.
Proof.
  induction s as [|c s IH]; intros H; [reflexivity|].
  simpl in *. apply orb_false_iff in H as [Hc Hs].
  destruct (Py.isspace c); [auto|].
  simpl. rewrite Hc, Hs. reflexivity.
Qed.

Lemma strip_no_nl (p : string) :
  nl_only_last p = true -> has_nl (Py.strip p) = false.
Proof. intros H. apply lstrip_no_nl, rstrip_no_nl, H. Qed.

Lemma join_no_nl (sep : string) (l : list string) :
  has_nl sep = false -> Forall (fun p => has_nl p = false) l ->
  has_nl (Py.join sep l) = false.
Proof.
  intros Hsep Hl. induction Hl as [|x l Hx Hl IH]; [reflexivity|].
  destruct l as [|y l]; [exact Hx|].
  change (has_nl (x ++ sep ++ Py.join sep (y :: l)) = false).
  rewrite !has_nl_app, Hx, Hsep, IH. reflexivity.
Qed.

(** The entry derived from a line of the log is one non-empty line without
    a line feed. *)
Lemma format_entry_open (line u : string) :
  nl_only_last line = true -> format_entry line = Ok u -> open_line u = true.
Proof.
  intros Hl. unfold format_entry.
  pose proof (split_go_nl "  " 0 line Hl) as Hf. fold (Py.split "  " line) in Hf.
  assert (Hs : Forall (fun p => has_nl p = false) (map Py.strip (Py.split "  " line))).
  { apply Forall_map. eapply Forall_impl; [|exact Hf]. apply strip_no_nl. }
  destruct (map Py.strip (Py.split "  " line)) as [|a [|b rest]];
    cbn [Py.del1 rbind]; try discriminate.
  intros H.
  assert (Hu : u = ("- " ++ Py.join " UTC: " (a :: rest))%string) by congruence.
  subst u. clear H.
  assert (Hr : Forall (fun p => has_nl p = false) (a :: rest)).
  { inversion Hs as [|? ? Ha Hs']; subst. inversion Hs'; subst.
    constructor; assumption. }
  unfold open_line.
  rewrite has_nl_app, (join_no_nl " UTC: " (a :: rest));
    [reflexivity | reflexivity | exact Hr].
Qed.

(** ** Lists read from the end *)

Lemma get_last_snoc {A} (l : list A) (x : A) : Py.get_last (l ++ [x]) = Ok x.
Proof. unfold Py.get_last. rewrite rev_unit. reflexivity. Qed.

Lemma get_last_inv {A} (l : list A) (x : A) :
  Py.get_last l = Ok x -> l = removelast l ++ [x].
Proof.
  unfold Py.get_last. destruct (rev l) as [|y t] eqn:E; [discriminate|].
  intros H. inversion H; subst y. clear H.
  apply (f_equal (@rev A)) in E. rewrite rev_involutive in E. simpl in E.
  subst l. rewrite removelast_last. reflexivity.
Qed.

Lemma get_last_skipn {A} (n : nat) (l : list A) :
  n < List.length l -> Py.get_last (skipn n l) = Py.get_last l.
Proof.
  intros Hn. destruct (Py.get_last l) as [x|e] eqn:E.
  - apply get_last_inv in E. rewrite E in Hn |- *.
    rewrite length_app in Hn. simpl in Hn.
    rewrite skipn_app.
    replace (n - List.length (removelast l)) with 0 by lia.
    simpl. apply get_last_snoc.
  - unfold Py.get_last in E. destruct (rev l) eqn:R; [|discriminate].
    apply (f_equal (@List.length A)) in R. rewrite length_rev in R.
    simpl in R. lia.
Qed.

(** ** The log rotator *)

Lemma trim_logs_run (w : world) (content : string) :
  log_txt w = Some content ->
  trim_logs w =
    (Ok tt,
     set_log (Py.writelines
                (if (21 <=? List.length (Py.readlines content))%nat
                 then Py.last_k 20 (Py.readlines content)
                 else Py.readlines content)) w).
Proof.
  intros H. unfold trim_logs, bind, read_lines, write_log. rewrite H.
  reflexivity.
Qed.


(** ** The changelog mirror *)

Lemma add_log_to_readme_run (w : world) (readme log line u : string) :
  readme_md w = Some readme -> log_txt w = Some log ->
  Py.get_last (Py.readlines log) = Ok line ->
  format_entry line = Ok u ->
  readme <> "" ->
  add_log_to_readme w =
    (Ok tt,
     set_readme (Py.writelines (removelast (Py.readlines readme) ++ [u])) w).
Proof.
  intros Hr Hl Hlast Hu Hne.
  unfold add_log_to_readme, bind, read_lines, lift, write_readme.
  rewrite Hr, Hl, Hlast, Hu.
  destruct (Py.readlines readme) as [|x rl] eqn:E; [|reflexivity].
  exfalso. apply Hne. rewrite <- (writelines_readlines readme), E. reflexivity.
Qed.

Lemma add_log_to_readme_inv (w w' : world) :
  add_log_to_readme w = (Ok tt, w') ->
  exists readme log line u,
    readme_md w = Some readme /\ log_txt w = Some log /\
    Py.get_last (Py.readlines log) = Ok line /\
    format_entry line = Ok u /\ readme <> "" /\
    w' = set_readme (Py.writelines (removelast (Py.readlines readme) ++ [u])) w.
Proof.
  unfold add_log_to_readme, bind, read_lines, lift, write_readme.
  destruct (readme_md w) as [readme|] eqn:Hr; [|discriminate].
  destruct (log_txt w) as [log|] eqn:Hl; [|discriminate].
  destruct (Py.get_last (Py.readlines log)) as [line|] eqn:Hlast; [|discriminate].
  destruct (format_entry line) as [u|] eqn:Hu; [|discriminate].
  destruct (Py.readlines readme) as [|x rl] eqn:E; [discriminate|].
  cbn [Py.set_last]. intros H. inversion H. clear H.
  exists readme, log, line, u. rewrite E.
  repeat split; try reflexivity; try assumption.
  intros ->. discriminate.
Qed.

Lemma get_last_line_shape (log line : string) :
  Py.get_last (Py.readlines log) = Ok line -> nl_only_last line = true.
Proof.
  intros H. apply get_last_inv in H.
  pose proof (lines_ok_all _ (readlines_ok log)) as Hall.
  rewrite Forall_forall in Hall. apply Hall. rewrite H.
  apply in_or_app. right. left. reflexivity.
Qed.

(** The status document reads back as its former lines with the last one
    replaced. *)
Lemma mirror_lines (readme log line u : string) :
  Py.get_last (Py.readlines log) = Ok line -> format_entry line = Ok u ->
  Py.readlines (Py.writelines (removelast (Py.readlines readme) ++ [u]))
  = removelast (Py.readlines readme) ++ [u].
Proof.
  intros Hlast Hu. apply readlines_writelines, lines_ok_snoc.
  - apply lines_ok_removelast, readlines_ok.
  - eapply format_entry_open; [|exact Hu].
    eapply get_last_line_shape, Hlast.
Qed.

(** C5. [add_log_to_readme] takes the last line of the log, splits it on
    two spaces, strips every field, deletes the second one, joins the rest
    with [" UTC: "] and puts ["- "] in front; the result is the last line of
    the status document afterwards.  For the log line of the specification
    this is ["- 2024-01-01 10:00:00 UTC: Job successfully completed"]. *)
Theorem add_log_to_readme_entry (w : world) (readme log line a b : string)
  (rest : list string) :
  readme_md w = Some readme -> readme <> "" ->
  log_txt w = Some log ->
  Py.get_last (Py.readlines log) = Ok line ->
  Py.split "  " line = a :: b :: rest ->
  let u := ("- " ++ Py.join " UTC: " (Py.strip a :: map Py.strip rest))%string in
  exists readme',
    add_log_to_readme w = (Ok tt, set_readme readme' w) /\
    Py.get_last (Py.readlines readme') = Ok u /\
    (line = "2024-01-01 10:00:00  INFO   Job successfully completed" ->
     u = "- 2024-01-01 10:00:00 UTC: Job successfully completed").
Proof.
  intros Hr Hne Hl Hlast Hsplit u.
  assert (Hu : format_entry line = Ok u).
  { unfold format_entry. rewrite Hsplit. reflexivity. }
  exists (Py.writelines (removelast (Py.readlines readme) ++ [u])).
  split; [eapply add_log_to_readme_run; eassumption|]. split.
  - rewrite (mirror_lines readme log line u Hlast Hu). apply get_last_snoc.
  - intros ->. vm_compute in Hsplit. inversion Hsplit; subst a b rest.
    reflexivity.
Qed.


(** ** Frames *)

Lemma existsb_eqb_In (k : string) (cols : list string) :
  existsb (String.eqb k) cols = true <-> In k cols.
Proof.
  rewrite existsb_exists. split.
  - intros (x & Hx & E). apply String.eqb_eq in E. subst x. exact Hx.
  - intros H. exists k. split; [exact H | apply String.eqb_refl].
Qed.

Lemma filter_eqb_nil (k : string) (cols : list string) :
  ~ In k cols -> filter (String.eqb k) cols = [].
Proof.
  induction cols as [|l cols IH]; intros H; [reflexivity|].
  simpl. destruct (String.eqb k l) eqn:E.
  - apply String.eqb_eq in E. subst l. exfalso. apply H. left. reflexivity.
  - apply IH. intros Hin. apply H. right. exact Hin.
Qed.

Lemma filter_eqb_In (k : string) (cols : list string) :
  filter (String.eqb k) cols <> [] -> In k cols.
Proof.
  intros H. destruct (in_dec string_dec k cols) as [Hin|Hin]; [exact Hin|].
  exfalso. apply H, filter_eqb_nil, Hin.
Qed.

Lemma pick_length (c : string) (cols : list string) (row : list cell) :
  List.length row = List.length cols ->
  List.length (pick c cols row) = List.length (filter (String.eqb c) cols).
Proof.
  revert row. induction cols as [|l cols IH]; intros row H.
  - reflexivity.
  - destruct row as [|x row]; [discriminate|].
    simpl in H. injection H as H. simpl.
    rewrite (String.eqb_sym c l).
    destruct (String.eqb l c); simpl; rewrite (IH row H); reflexivity.
Qed.

Lemma pick_single (c c' : string) (cols : list string) (row : list cell) :
  List.length row = List.length cols ->
  filter (String.eqb c) cols = [c'] ->
  pick c cols row = [field cols row c].
Proof.
  intros Hlen Hf. pose proof (pick_length c cols row Hlen) as H.
  rewrite Hf in H. unfold field.
  destruct (pick c cols row) as [|x [|y t]]; try discriminate. reflexivity.
Qed.

Lemma combine_map_same {A B C} (f : A -> B) (g : A -> C) (l : list A) :
  combine (map f l) (map g l) = map (fun x => (f x, g x)) l.
Proof. induction l as [|x l IH]; simpl; congruence. Qed.

Lemma select_by_mask {A B} (p : A -> bool) (F : A -> B) (l : list A) :
  map (fun rm => F (fst rm)) (filter (fun rm => snd rm) (combine l (map p l)))
  = map F (filter p l).
Proof.
  induction l as [|x l IH]; [reflexivity|].
  simpl. destruct (p x); simpl; rewrite IH; reflexivity.
Qed.

Lemma flat_map_singletons {A B} (f : A -> list B) (g : A -> B) (l : list A) :
  (forall k, In k l -> f k = [g k]) -> flat_map f l = map g l.
Proof.
  induction l as [|x l IH]; intros H; [reflexivity|].
  simpl. rewrite (H x) by (left; reflexivity).
  rewrite IH; [reflexivity|]. intros k Hk. apply H. right. exact Hk.
Qed.

Lemma getitem_inv (e : exn) (df : DataFrame) (c : string) (l : list cell) :
  getitem e df c = Ok l ->
  (exists c', filter (String.eqb c) (columns df) = [c']) /\
  l = map (fun row => field (columns df) row c) (values df).
Proof.
  unfold getitem.
  destruct (filter (String.eqb c) (columns df)) as [|c' [|c'' t]];
    try discriminate.
  intros H. inversion H. split; [exists c'|]; reflexivity.
Qed.

Lemma getitem_single (e : exn) (df : DataFrame) (c c' : string) :
  filter (String.eqb c) (columns df) = [c'] ->
  getitem e df c = Ok (map (fun row => field (columns df) row c) (values df)).
Proof. unfold getitem. intros ->. reflexivity. Qed.

Lemma labels_present (cols labels : list string) :
  (forall k, In k labels -> In k cols) <->
  exists l, mapM (fun k => if existsb (String.eqb k) cols then Ok tt
                           else Raise (KeyError k)) labels = Ok l.
Proof.
  induction labels as [|k labels IH].
  - split; [intros _; exists []; reflexivity | intros _ k []].
  - cbn [mapM]. split.
    + intros H.
      assert (Hk : existsb (String.eqb k) cols = true)
        by (apply existsb_eqb_In, H; left; reflexivity).
      rewrite Hk. cbn [rbind].
      destruct (proj1 IH) as [l Hl]; [intros k' Hk'; apply H; right; exact Hk'|].
      rewrite Hl. exists (tt :: l). reflexivity.
    + intros [l Hl]. destruct (existsb (String.eqb k) cols) eqn:Hk;
        [|discriminate].
      cbn [rbind] in Hl.
      destruct (mapM _ labels) as [l'|] eqn:Hl'; [|discriminate].
      intros k' [<-|Hk']; [apply existsb_eqb_In, Hk|].
      apply (proj2 IH); [exists l'; reflexivity | exact Hk'].
Qed.

Lemma loc_inv (df out : DataFrame) (mask : list bool) (labels : list string) :
  loc df mask labels = Ok out ->
  (forall k, In k labels -> In k (columns df)) /\
  out = {| columns := flat_map (fun k => filter (String.eqb k) (columns df)) labels;
           values := map (fun rm => flat_map (fun k => pick k (columns df) (fst rm)) labels)
                         (filter (fun rm => snd rm) (combine (values df) mask)) |}.
Proof.
  unfold loc. destruct (mapM _ labels) as [l|] eqn:Hk; [|discriminate].
  cbn [rbind]. intros H. split.
  - apply (proj2 (labels_present (columns df) labels)). exists l. exact Hk.
  - congruence.
Qed.

Lemma loc_run (df : DataFrame) (mask : list bool) (labels : list string) :
  (forall k, In k labels -> In k (columns df)) ->
  loc df mask labels =
    Ok {| columns := flat_map (fun k => filter (String.eqb k) (columns df)) labels;
          values := map (fun rm => flat_map (fun k => pick k (columns df) (fst rm)) labels)
                        (filter (fun rm => snd rm) (combine (values df) mask)) |}.
Proof.
  intros Hk. unfold loc.
  destruct (proj1 (labels_present (columns df) labels) Hk) as [l Hl].
  rewrite Hl. reflexivity.
Qed.

Lemma approved_unrecorded_mask (cols labels : list string) (rows : list (list cell)) :
  map (fun rm => flat_map (fun k => pick k cols (fst rm)) labels)
      (filter (fun rm => snd rm)
         (combine rows
            (map (fun ar => cell_eqb (fst ar) "y" && cell_eqb (snd ar) "")
               (combine
                  (map (fun row => field cols row "cleaned_approval_text") rows)
                  (map (fun row => field cols row "Recorded") rows)))))
  = map (fun r => flat_map (fun k => pick k cols r) labels)
        (filter (selected cols) rows).
Proof.
  rewrite combine_map_same, map_map.
  apply (select_by_mask (selected cols)
           (fun r => flat_map (fun k => pick k cols r) labels)).
Qed.

(** What [get_filtered_data] returns, whenever it returns. *)
Lemma get_filtered_data_inv (df out : DataFrame) :
  get_filtered_data df = Ok out ->
  (exists c, filter (String.eqb "cleaned_approval_text") (columns df) = [c]) /\
  (exists c, filter (String.eqb "Recorded") (columns df) = [c]) /\
  (forall k, In k keeps -> In k (columns df)) /\
  out = {| columns := flat_map (fun k => filter (String.eqb k) (columns df)) keeps;
           values := map (fun r => flat_map (fun k => pick k (columns df) r) keeps)
                         (filter (selected (columns df)) (values df)) |}.
Proof.
  unfold get_filtered_data.
  destruct (getitem ValueError df "cleaned_approval_text") as [a|] eqn:Ha;
    [|discriminate].
  destruct (getitem ValueError df "Recorded") as [r|] eqn:Hr; [|discriminate].
  apply getitem_inv in Ha as [Ha ->]. apply getitem_inv in Hr as [Hr ->].
  cbn [rbind]. intros H. apply loc_inv in H as [Hk ->].
  split; [exact Ha|]. split; [exact Hr|]. split; [exact Hk|].
  rewrite approved_unrecorded_mask. reflexivity.
Qed.

Lemma get_filtered_data_run (df : DataFrame) (c1 c2 : string) :
  filter (String.eqb "cleaned_approval_text") (columns df) = [c1] ->
  filter (String.eqb "Recorded") (columns df) = [c2] ->
  (forall k, In k keeps -> In k (columns df)) ->
  get_filtered_data df =
    Ok {| columns := flat_map (fun k => filter (String.eqb k) (columns df)) keeps;
          values := map (fun r => flat_map (fun k => pick k (columns df) r) keeps)
                        (filter (selected (columns df)) (values df)) |}.
Proof.
  intros Ha Hr Hk. unfold get_filtered_data.
  rewrite (getitem_single _ _ _ _ Ha), (getitem_single _ _ _ _ Hr).
  cbn [rbind]. rewrite (loc_run _ _ _ Hk), approved_unrecorded_mask.
  reflexivity.
Qed.

Lemma wf_row (df : DataFrame) (r : list cell) :
  wf df -> In r (values df) -> List.length r = List.length (columns df).
Proof. unfold wf. rewrite Forall_forall. auto. Qed.

Lemma carried_once_single (cols : list string) (k : string) :
  carried_once cols k -> filter (String.eqb k) cols = [k].
Proof.
  unfold carried_once. intros H.
  destruct (filter (String.eqb k) cols) as [|c [|c' t]] eqn:E;
    try discriminate.
  assert (Hc : In c (filter (String.eqb k) cols)) by (rewrite E; left; reflexivity).
  apply filter_In in Hc as [_ Hc]. apply String.eqb_eq in Hc. congruence.
Qed.

(** C1, as the code has it. On a frame in which each label the filter looks
    up is carried by exactly one column, [get_filtered_data] returns the ten
    fixed columns in their fixed order, whatever the order of the columns of
    the frame, and exactly the rows whose [cleaned_approval_text] is ["y"]
    and whose [Recorded] is empty, in the order of the frame; and on every
    frame the rows of what it returns are the rows that satisfy both
    predicates, in that order, and no other. *)
Theorem get_filtered_data_exact (df : DataFrame) :
  (wf df -> (forall k, In k needed -> carried_once (columns df) k) ->
   get_filtered_data df
   = Ok {| columns := keeps;
           values := map (fun r => map (field (columns df) r) keeps)
                         (filter (selected (columns df)) (values df)) |}) /\
  (forall out, get_filtered_data df = Ok out ->
     values out
     = map (fun r => flat_map (fun k => pick k (columns df) r) keeps)
           (filter (selected (columns df)) (values df))).
Proof.
  split.
  - intros Hwf Hone.
    assert (Hf : forall k, In k needed -> filter (String.eqb k) (columns df) = [k])
      by (intros k Hk; apply carried_once_single, Hone, Hk).
    assert (Hk : forall k, In k keeps -> In k (columns df)).
    { intros k Hk. apply filter_eqb_In. rewrite Hf; [discriminate|].
      right. right. exact Hk. }
    rewrite (get_filtered_data_run df "cleaned_approval_text" "Recorded").
    + f_equal. f_equal.
      * rewrite (flat_map_singletons _ (fun k => k)); [apply map_id|].
        intros k Hkk. apply Hf. right. right. exact Hkk.
      * apply map_ext_in. intros r Hr. apply flat_map_singletons.
        intros k Hkk. apply (pick_single k k).
        -- apply (wf_row df r Hwf). apply filter_In in Hr. tauto.
        -- apply Hf. right. right. exact Hkk.
    + apply Hf. left. reflexivity.
    + apply Hf. right. left. reflexivity.
    + exact Hk.
  - intros out Hout. apply get_filtered_data_inv in Hout as (_ & _ & _ & ->).
    reflexivity.
Qed.

Lemma pick_app (l : string) (cols cols2 : list string) (row row2 : list cell) :
  List.length row = List.length cols ->
  pick l (cols ++ cols2) (row ++ row2) = pick l cols row ++ pick l cols2 row2.
Proof.
  revert row. induction cols as [|l0 cols IH]; intros row H.
  - destruct row; [reflexivity|discriminate].
  - destruct row as [|x row]; [discriminate|]. injection H as H.
    simpl. destruct (String.eqb l0 l); simpl; rewrite (IH row H); reflexivity.
Qed.

Lemma pick_absent (l : string) (cols : list string) (row : list cell) :
  ~ In l cols -> pick l cols row = [].
Proof.
  revert row. induction cols as [|l0 cols IH]; intros row H; [reflexivity|].
  destruct row as [|x row]; [reflexivity|]. simpl.
  destruct (String.eqb l0 l) eqn:E.
  - apply String.eqb_eq in E. subst l0. exfalso. apply H. left. reflexivity.
  - apply IH. intros Hin. apply H. right. exact Hin.
Qed.

Lemma pick_replaced_other (l c : string) (v : cell) (cols : list string)
  (row : list cell) :
  l <> c ->
  pick l cols (map (fun lx => if String.eqb (fst lx) c then v else snd lx)
                   (combine cols row))
  = pick l cols row.
Proof.
  intros Hlc. revert row. induction cols as [|l0 cols IH]; intros row.
  - reflexivity.
  - destruct row as [|x row]; [reflexivity|]. simpl.
    destruct (String.eqb l0 l) eqn:E; [|apply IH].
    apply String.eqb_eq in E. subst l0.
    destruct (String.eqb l c) eqn:E'.
    + apply String.eqb_eq in E'. contradiction.
    + rewrite IH. reflexivity.
Qed.

Lemma pick_replaced_same (c : string) (v : cell) (cols : list string)
  (row : list cell) :
  Forall (eq v)
    (pick c cols (map (fun lx => if String.eqb (fst lx) c then v else snd lx)
                      (combine cols row))).
Proof.
  revert row. induction cols as [|l0 cols IH]; intros row; [constructor|].
  destruct row as [|x row]; [constructor|]. simpl.
  destruct (String.eqb l0 c); [constructor; [reflexivity|]|]; apply IH.
Qed.

Lemma labels_with_length (cols : list string) (c : string) (v : cell)
  (row : list cell) :
  List.length row = List.length cols ->
  List.length (set_cell cols c v row) = List.length (labels_with cols c).
Proof.
  intros H. unfold set_cell, labels_with.
  destruct (existsb (String.eqb c) cols).
  - rewrite length_map, length_combine. lia.
  - rewrite !length_app. simpl. lia.
Qed.

Lemma set_cell_other (l c : string) (v : cell) (cols : list string)
  (row : list cell) :
  l <> c -> List.length row = List.length cols ->
  pick l (labels_with cols c) (set_cell cols c v row) = pick l cols row.
Proof.
  intros Hlc Hlen. unfold set_cell, labels_with.
  destruct (existsb (String.eqb c) cols).
  - apply pick_replaced_other, Hlc.
  - rewrite (pick_app l cols [c] row [v] Hlen). simpl.
    destruct (String.eqb c l) eqn:E.
    + apply String.eqb_eq in E. congruence.
    + apply app_nil_r.
Qed.

Lemma set_cell_same (c : string) (v : cell) (cols : list string)
  (row : list cell) :
  List.length row = List.length cols ->
  field (labels_with cols c) (set_cell cols c v row) c = v /\
  Forall (eq v) (pick c (labels_with cols c) (set_cell cols c v row)).
Proof.
  intros Hlen.
  assert (HF : Forall (eq v) (pick c (labels_with cols c) (set_cell cols c v row))).
  { unfold set_cell, labels_with.
    destruct (existsb (String.eqb c) cols) eqn:E.
    - apply pick_replaced_same.
    - rewrite (pick_app c cols [c] row [v] Hlen). simpl.
      rewrite String.eqb_refl. rewrite pick_absent.
      + repeat constructor.
      + intros Hin. apply existsb_eqb_In in Hin. congruence. }
  split; [|exact HF].
  pose proof (pick_length c _ _ (labels_with_length cols c v row Hlen)) as HL.
  assert (Hin : In c (labels_with cols c)).
  { unfold labels_with. destruct (existsb (String.eqb c) cols) eqn:E.
    - apply existsb_eqb_In, E.
    - apply in_or_app. right. left. reflexivity. }
  unfold field.
  destruct (pick c (labels_with cols c) (set_cell cols c v row)) as [|x t].
  - exfalso. simpl in HL. symmetry in HL. apply length_zero_iff_nil in HL.
    assert (Hk : In c (filter (String.eqb c) (labels_with cols c))).
    { apply filter_In. split; [exact Hin | apply String.eqb_refl]. }
    rewrite HL in Hk. exact Hk.
  - inversion HF; subst. reflexivity.
Qed.

Lemma setitem_columns (df : DataFrame) (c : string) (vs : list cell) :
  columns (setitem df c vs) = labels_with (columns df) c.
Proof. reflexivity. Qed.

Lemma setitem_rows (df : DataFrame) (c : string) (vs : list cell) (r : list cell) :
  In r (values (setitem df c vs)) ->
  exists r0 v, In (r0, v) (combine (values df) vs) /\
               r = set_cell (columns df) c v r0.
Proof.
  unfold setitem. cbn [values]. intros H. apply in_map_iff in H.
  destruct H as ([r0 v] & E & Hin). exists r0, v. split; [exact Hin|].
  symmetry. exact E.
Qed.

Lemma setitem_wf (df : DataFrame) (c : string) (vs : list cell) :
  wf df -> wf (setitem df c vs).
Proof.
  intros Hwf. unfold wf. rewrite Forall_forall. intros r Hr.
  apply setitem_rows in Hr as (r0 & v & Hin & ->).
  rewrite setitem_columns. apply labels_with_length.
  apply (wf_row df r0 Hwf). eapply in_combine_l, Hin.
Qed.

Lemma labels_with_In (cols : list string) (c l : string) :
  In l cols -> In l (labels_with cols c).
Proof.
  unfold labels_with. destruct (existsb (String.eqb c) cols); [auto|].
  intros H. apply in_or_app. left. exact H.
Qed.

Lemma labels_with_self (cols : list string) (c : string) :
  In c (labels_with cols c).
Proof.
  unfold labels_with. destruct (existsb (String.eqb c) cols) eqn:E.
  - apply existsb_eqb_In, E.
  - apply in_or_app. right. left. reflexivity.
Qed.

Lemma labels_with_count (cols : list string) (c l : string) :
  l <> c ->
  filter (String.eqb l) (labels_with cols c) = filter (String.eqb l) cols.
Proof.
  intros Hlc. unfold labels_with.
  destruct (existsb (String.eqb c) cols); [reflexivity|].
  rewrite filter_app. simpl. destruct (String.eqb l c) eqn:E.
  - apply String.eqb_eq in E. contradiction.
  - apply app_nil_r.
Qed.

Lemma setitem_column_is (df : DataFrame) (c : string) (v : cell) :
  wf df -> column_is (setitem_scalar df c v) c v.
Proof.
  intros Hwf. split; [apply labels_with_self|].
  intros r Hr. apply setitem_rows in Hr as (r0 & v0 & Hin & ->).
  assert (v0 = v) as ->.
  { apply in_combine_r in Hin. apply in_map_iff in Hin as (? & E & _).
    symmetry. exact E. }
  apply set_cell_same, (wf_row df r0 Hwf). eapply in_combine_l, Hin.
Qed.

Lemma setitem_keeps_column (df : DataFrame) (c l : string) (v : cell)
  (vs : list cell) :
  wf df -> l <> c -> column_is df l v -> column_is (setitem df c vs) l v.
Proof.
  intros Hwf Hlc [Hin Hcol]. split; [apply labels_with_In, Hin|].
  intros r Hr. apply setitem_rows in Hr as (r0 & v0 & Hin0 & ->).
  apply in_combine_l in Hin0. rewrite setitem_columns. unfold field.
  rewrite (set_cell_other l c v0 _ r0 Hlc (wf_row df r0 Hwf Hin0)).
  apply Hcol, Hin0.
Qed.

Lemma map_fst_combine {A B} (l : list A) (l' : list B) :
  List.length l = List.length l' -> map fst (combine l l') = l.
Proof.
  revert l'. induction l as [|x l IH]; intros l' H; [reflexivity|].
  destruct l' as [|y l']; [discriminate|]. injection H as H.
  simpl. rewrite (IH l' H). reflexivity.
Qed.

Lemma in_combine_map {A B} (g : A -> B) (l : list A) (x : A) (y : B) :
  In (x, y) (combine l (map g l)) -> y = g x.
Proof.
  induction l as [|a l IH]; [intros []|].
  simpl. intros [E|H]; [congruence | auto].
Qed.

Lemma mapM_length {A B} (f : A -> result B) (l : list A) (l' : list B) :
  mapM f l = Ok l' -> List.length l' = List.length l.
Proof.
  revert l'. induction l as [|a l IH]; intros l' H.
  - inversion H. reflexivity.
  - cbn [mapM] in H. destruct (f a) as [b|]; [|discriminate].
    cbn [rbind] in H. destruct (mapM f l) as [bs|]; [|discriminate].
    cbn [rbind] in H. inversion H. simpl. rewrite (IH bs eq_refl). reflexivity.
Qed.

Lemma mapM_all {A B} (f : A -> result B) (l : list A) :
  (forall a, In a l -> exists b, f a = Ok b) -> exists l', mapM f l = Ok l'.
Proof.
  induction l as [|a l IH]; intros H; [exists []; reflexivity|].
  destruct (H a) as [b Hb]; [left; reflexivity|].
  destruct IH as [bs Hbs]; [intros x Hx; apply H; right; exact Hx|].
  exists (b :: bs). cbn [mapM]. rewrite Hb. cbn [rbind]. rewrite Hbs.
  reflexivity.
Qed.

Lemma setitem_length (df : DataFrame) (c : string) (vs : list cell) :
  List.length vs = List.length (values df) ->
  List.length (values (setitem df c vs)) = List.length (values df).
Proof.
  intros H. unfold setitem. cbn [values].
  rewrite length_map, length_combine. lia.
Qed.

(** Assigning a column leaves the columns under another label as they
    were. *)
Lemma setitem_column_other (df : DataFrame) (c l : string) (vs : list cell) :
  wf df -> l <> c -> List.length vs = List.length (values df) ->
  map (fun r => field (columns (setitem df c vs)) r l) (values (setitem df c vs))
  = map (fun r => field (columns df) r l) (values df).
Proof.
  intros Hwf Hlc Hlen. rewrite setitem_columns. unfold setitem. cbn [values].
  rewrite map_map.
  rewrite <- (map_fst_combine (values df) vs) at 2 by (symmetry; exact Hlen).
  rewrite map_map. apply map_ext_in. intros [r0 v] Hin. cbn [fst snd].
  unfold field. rewrite set_cell_other; [reflexivity | exact Hlc |].
  apply (wf_row df r0 Hwf). eapply in_combine_l, Hin.
Qed.

Lemma pad_row_length (w : nat) (row : list string) :
  List.length row <= w -> List.length (pad_row w row) = w.
Proof.
  intros H. unfold pad_row. rewrite length_app, length_map, repeat_length. lia.
Qed.

Lemma mk_frame_inv (data : list (list string)) (cols : list string)
  (df : DataFrame) :
  mk_frame data cols = Ok df ->
  columns df = cols /\ wf df /\
  values df = map (pad_row (List.length cols)) data.
Proof.
  unfold mk_frame. destruct data as [|r0 data].
  - intros H. inversion H. repeat split. constructor.
  - set (rows := r0 :: data).
    destruct (list_max (map (@List.length string) rows) =? List.length cols)%nat
      eqn:E; [|discriminate].
    apply Nat.eqb_eq in E. intros H.
    assert (Hdf : df = {| columns := cols;
                          values := map (pad_row (list_max (map (@List.length string) rows)))
                                        rows |}) by congruence.
    subst df. clear H. cbn [columns values].
    rewrite E. repeat split.
    unfold wf. cbn [columns values]. apply Forall_forall. intros r Hr.
    apply in_map_iff in Hr as (r' & <- & Hr'). apply pad_row_length.
    assert (Hle : list_max (map (@List.length string) rows) <= List.length cols)
      by lia.
    apply list_max_le in Hle. rewrite Forall_forall in Hle.
    apply Hle, in_map, Hr'.
Qed.

Lemma mk_frame_rect (data : list (list string)) (cols : list string) :
  Forall (fun r => List.length r = List.length cols) data ->
  mk_frame data cols = Ok {| columns := cols; values := map (map Str) data |}.
Proof.
  intros H. unfold mk_frame. destruct data as [|r0 data]; [reflexivity|].
  set (rows := r0 :: data) in *.
  assert (E : list_max (map (@List.length string) rows) = List.length cols).
  { apply Nat.le_antisymm.
    - apply list_max_le, Forall_map. eapply Forall_impl; [|exact H].
      intros r Hr. simpl in Hr. lia.
    - inversion H as [|? ? H0 _]; subst. unfold rows. simpl. lia. }
  rewrite E, Nat.eqb_refl. f_equal. f_equal.
  apply map_ext_in. intros r Hr. rewrite Forall_forall in H.
  unfold pad_row. rewrite (H r Hr), Nat.sub_diag. apply app_nil_r.
Qed.

Lemma rename_wf (df : DataFrame) (m : list (string * string)) :
  wf df -> wf (rename df m).
Proof.
  unfold wf, rename, rename_labels. cbn [columns values].
  rewrite length_map. auto.
Qed.

Section FrameProperties.

Variable to_mdY : string -> result cell.

(** The steps of [make_callings_data], whenever it returns. *)
Lemma make_callings_data_inv (form_data : list (list string)) (df : DataFrame) :
  make_callings_data to_mdY form_data = Ok df ->
  exists header df0 stamps dates approval,
    form_data = header :: tl form_data /\
    mk_frame (tl form_data) header = Ok df0 /\
    let df2 := setitem_scalar (rename df0 simplified_name_map)
                 "ScheduledMeetingWith" (Str "") in
    let df3 := setitem df2 "DateRequested" dates in
    getitem ValueError df2 "Timestamp" = Ok stamps /\
    mapM (date_cell to_mdY) stamps = Ok dates /\
    getitem AttributeError df3 "BishopApproval" = Ok approval /\
    df = setitem df3 "cleaned_approval_text" (map str_strip_lower_0 approval).
Proof.
  unfold make_callings_data. destruct form_data as [|header rows];
    [discriminate|].
  cbn [rbind tl]. destruct (mk_frame rows header) as [df0|] eqn:E0;
    [|discriminate].
  cbn [rbind].
  destruct (getitem ValueError _ "Timestamp") as [stamps|] eqn:E1;
    [|discriminate].
  cbn [rbind].
  destruct (mapM (date_cell to_mdY) stamps) as [dates|] eqn:E2; [|discriminate].
  cbn [rbind].
  destruct (getitem AttributeError _ "BishopApproval") as [approval|] eqn:E3;
    [|discriminate].
  cbn [rbind]. intros H.
  exists header, df0, stamps, dates, approval.
  repeat split; try assumption. congruence.
Qed.

Lemma make_callings_data_facts (form_data : list (list string)) (df : DataFrame) :
  make_callings_data to_mdY form_data = Ok df ->
  wf df /\
  List.length (values df) = List.length (tl form_data) /\
  column_is df "ScheduledMeetingWith" (Str "") /\
  (exists c, filter (String.eqb "BishopApproval") (columns df) = [c]) /\
  forall r, In r (values df) ->
    field (columns df) r "cleaned_approval_text"
    = str_strip_lower_0 (field (columns df) r "BishopApproval").
Proof.
  intros H. apply make_callings_data_inv in H.
  destruct H as (header & df0 & stamps & dates & approval & _ & H0 & H).
  cbv zeta in H. destruct H as (H1 & H2 & H3 & ->).
  apply mk_frame_inv in H0 as (Hc0 & Hwf0 & Hv0).
  set (df1 := rename df0 simplified_name_map) in *.
  assert (Hwf1 : wf df1) by (apply rename_wf, Hwf0).
  set (df2 := setitem_scalar df1 "ScheduledMeetingWith" (Str "")) in *.
  assert (Hwf2 : wf df2) by (apply setitem_wf, Hwf1).
  assert (Hl2 : List.length (values df2) = List.length (tl form_data)).
  { unfold df2, setitem_scalar. rewrite setitem_length by apply length_map.
    unfold df1, rename. cbn [values]. rewrite Hv0. apply length_map. }
  set (df3 := setitem df2 "DateRequested" dates) in *.
  assert (Hwf3 : wf df3) by (apply setitem_wf, Hwf2).
  apply getitem_inv in H1 as [_ ->].
  apply mapM_length in H2. rewrite length_map in H2.
  assert (Hl3 : List.length (values df3) = List.length (values df2))
    by (apply setitem_length, H2).
  apply getitem_inv in H3 as [Hba ->].
  set (approval := map _ (values df3)).
  split; [apply setitem_wf, Hwf3|]. split.
  { rewrite setitem_length; [lia|]. unfold approval. rewrite !length_map.
    reflexivity. }
  split.
  { apply setitem_keeps_column; [exact Hwf3 | discriminate |].
    apply setitem_keeps_column; [exact Hwf2 | discriminate |].
    apply setitem_column_is, Hwf1. }
  split.
  { rewrite setitem_columns, labels_with_count by discriminate. exact Hba. }
  intros r Hr. apply setitem_rows in Hr as (r0 & v & Hin & ->).
  unfold approval in Hin. rewrite map_map in Hin.
  pose proof (in_combine_map _ _ _ _ Hin) as Hv.
  apply in_combine_l in Hin.
  pose proof (wf_row df3 r0 Hwf3 Hin) as Hlen.
  rewrite setitem_columns.
  rewrite (proj1 (set_cell_same "cleaned_approval_text" v _ r0 Hlen)).
  unfold field at 1.
  rewrite set_cell_other by (discriminate || exact Hlen). exact Hv.
Qed.

(** C9. Whenever [make_callings_data] returns, its frame has one row per
    data row of the sheet and a column [ScheduledMeetingWith], and every
    cell under that label is the empty string. *)
Theorem make_callings_data_scheduled (form_data : list (list string))
  (df : DataFrame) :
  make_callings_data to_mdY form_data = Ok df ->
  List.length (values df) = List.length (tl form_data) /\
  In "ScheduledMeetingWith" (columns df) /\
  forall r, In r (values df) ->
    field (columns df) r "ScheduledMeetingWith" = Str "" /\
    Forall (eq (Str "")) (pick "ScheduledMeetingWith" (columns df) r).
Proof.
  intros H. apply make_callings_data_facts in H as (_ & Hl & [Hin Hcol] & _).
  auto.
Qed.

End FrameProperties.

Section ApprovalProperties.

Variable to_mdY : string -> result cell.

(** [make_callings_data] returns on a rectangular sheet that has one
    [Timestamp] column and one [BishopApproval] column once renamed and
    whose timestamps parse; what the approval cells hold plays no part. *)
Lemma make_callings_data_returns (header : list string)
  (rows : list (list string)) (c1 c2 : string) :
  let cols := rename_labels simplified_name_map header in
  Forall (fun r => List.length r = List.length header) rows ->
  filter (String.eqb "Timestamp") cols = [c1] ->
  filter (String.eqb "BishopApproval") cols = [c2] ->
  (forall r t, In r rows -> field cols (map Str r) "Timestamp" = Str t ->
               exists d, to_mdY t = Ok d) ->
  exists df,
    make_callings_data to_mdY (header :: rows) = Ok df /\
    map (fun r => field (columns df) r "BishopApproval") (values df)
    = map (fun r => field cols (map Str r) "BishopApproval") rows.
Proof.
  intros cols Hrect Hts Hba Hparse. unfold make_callings_data.
  cbn [rbind tl]. rewrite (mk_frame_rect rows header Hrect). cbn [rbind].
  set (df1 := rename {| columns := header; values := map (map Str) rows |}
                simplified_name_map).
  assert (Hwf1 : wf df1).
  { apply rename_wf. unfold wf. cbn [columns values]. apply Forall_map.
    eapply Forall_impl; [|exact Hrect]. intros r Hr. cbn beta.
    rewrite length_map. exact Hr. }
  set (df2 := setitem_scalar df1 "ScheduledMeetingWith" (Str "")).
  assert (Hwf2 : wf df2) by (apply setitem_wf, Hwf1).
  assert (Hts2 : filter (String.eqb "Timestamp") (columns df2) = [c1]).
  { unfold df2, setitem_scalar. rewrite setitem_columns, labels_with_count
      by discriminate. exact Hts. }
  rewrite (getitem_single _ df2 _ _ Hts2). cbn [rbind].
  assert (Hcol2 : forall l, l <> "ScheduledMeetingWith" ->
            map (fun r => field (columns df2) r l) (values df2)
            = map (fun r => field cols (map Str r) l) rows).
  { intros l Hl. unfold df2, setitem_scalar.
    rewrite setitem_column_other; [|exact Hwf1|exact Hl|apply length_map].
    unfold df1, rename. cbn [columns values]. rewrite map_map. reflexivity. }
  destruct (mapM_all (date_cell to_mdY)
              (map (fun row => field (columns df2) row "Timestamp") (values df2)))
    as [dates Hdates].
  { rewrite Hcol2 by discriminate. intros a Ha.
    apply in_map_iff in Ha as (r & <- & Hr).
    destruct (field cols (map Str r) "Timestamp") as [t|] eqn:Et.
    - apply (Hparse r t Hr Et).
    - exists NaN. reflexivity. }
  rewrite Hdates. cbn [rbind].
  pose proof (mapM_length _ _ _ Hdates) as Hlen. rewrite length_map in Hlen.
  set (df3 := setitem df2 "DateRequested" dates).
  assert (Hwf3 : wf df3) by (apply setitem_wf, Hwf2).
  assert (Hba3 : filter (String.eqb "BishopApproval") (columns df3) = [c2]).
  { unfold df3. rewrite setitem_columns, labels_with_count by discriminate.
    unfold df2, setitem_scalar.
    rewrite setitem_columns, labels_with_count by discriminate. exact Hba. }
  rewrite (getitem_single _ df3 _ _ Hba3). cbn [rbind].
  eexists. split; [reflexivity|].
  rewrite setitem_column_other; [|exact Hwf3|discriminate|].
  - unfold df3. rewrite setitem_column_other;
      [|exact Hwf2|discriminate|exact Hlen].
    apply Hcol2. discriminate.
  - rewrite !length_map. reflexivity.
Qed.

(** C7. A blank approval does not make [make_callings_data] raise: on a
    rectangular sheet with one [Timestamp] and one [BishopApproval] column
    whose timestamps parse it returns a frame whose approval column is that
    of the sheet, and a row whose approval is empty or only white space has
    the missing value as its [cleaned_approval_text], fails the predicate
    of the Row Filter, and is not among the rows the filter returns. *)
Theorem blank_approval_not_approved (header : list string)
  (rows : list (list string)) (c1 c2 : string) :
  let cols := rename_labels simplified_name_map header in
  Forall (fun r => List.length r = List.length header) rows ->
  filter (String.eqb "Timestamp") cols = [c1] ->
  filter (String.eqb "BishopApproval") cols = [c2] ->
  (forall r t, In r rows -> field cols (map Str r) "Timestamp" = Str t ->
               exists d, to_mdY t = Ok d) ->
  exists df,
    make_callings_data to_mdY (header :: rows) = Ok df /\
    map (fun r => field (columns df) r "BishopApproval") (values df)
    = map (fun r => field cols (map Str r) "BishopApproval") rows /\
    forall r s,
      In r (values df) ->
      field (columns df) r "BishopApproval" = Str s -> Py.strip s = "" ->
      field (columns df) r "cleaned_approval_text" = NaN /\
      selected (columns df) r = false /\
      forall out, get_filtered_data df = Ok out ->
        values out = map (fun r => flat_map (fun k => pick k (columns df) r) keeps)
                         (filter (selected (columns df)) (values df)) /\
        ~ In r (filter (selected (columns df)) (values df)).
Proof.
  intros cols Hrect Hts Hba Hparse.
  destruct (make_callings_data_returns header rows c1 c2 Hrect Hts Hba Hparse)
    as (df & Hdf & Hcol).
  exists df. split; [exact Hdf|]. split; [exact Hcol|].
  intros r s Hr Hs Hblank.
  pose proof (make_callings_data_facts to_mdY _ _ Hdf) as (_ & _ & _ & _ & Hclean).
  assert (Hnan : field (columns df) r "cleaned_approval_text" = NaN).
  { rewrite (Hclean r Hr), Hs. unfold str_strip_lower_0. rewrite Hblank.
    reflexivity. }
  assert (Hsel : selected (columns df) r = false).
  { unfold selected. rewrite Hnan. reflexivity. }
  split; [exact Hnan|]. split; [exact Hsel|].
  intros out Hout. apply get_filtered_data_inv in Hout as (_ & _ & _ & ->).
  split; [reflexivity|].
  intros Hin. apply filter_In in Hin as [_ Hin]. congruence.
Qed.

End ApprovalProperties.

(** ** Worksheets *)

Lemma trim_len_above {A} (blank : A -> bool) (l : list A) (k : nat) :
  trim_len blank l <= k -> blank_at blank l k = true.
Proof.
  revert k. induction l as [|a l IH]; intros k H.
  - unfold blank_at. destruct k; reflexivity.
  - cbn [trim_len] in H. destruct (trim_len blank l) as [|n] eqn:E.
    + destruct k as [|k].
      * unfold blank_at. simpl. destruct (blank a); [reflexivity|lia].
      * apply (IH k). lia.
    + destruct k as [|k]; [lia|]. apply (IH k). lia.
Qed.

Lemma trim_len_last {A} (blank : A -> bool) (l : list A) (n : nat) :
  trim_len blank l = S n -> blank_at blank l n = false.
Proof.
  revert n. induction l as [|a l IH]; intros n H; [discriminate|].
  cbn [trim_len] in H. destruct (trim_len blank l) as [|m] eqn:E.
  - destruct (blank a) eqn:Ea; [discriminate|].
    injection H as <-. unfold blank_at. simpl. exact Ea.
  - injection H as <-. apply (IH m). reflexivity.
Qed.

Lemma trim_len_unique {A} (blank : A -> bool) (l : list A) (n : nat) :
  (forall k, n <= k -> blank_at blank l k = true) ->
  (n = 0 \/ blank_at blank l (n - 1) = false) ->
  trim_len blank l = n.
Proof.
  intros Habove Hlast.
  destruct (Nat.lt_trichotomy (trim_len blank l) n) as [Hlt|[Heq|Hgt]];
    [|exact Heq|].
  - destruct Hlast as [->|Hlast]; [lia|].
    rewrite trim_len_above in Hlast by lia. discriminate.
  - destruct (trim_len blank l) as [|m] eqn:E; [lia|].
    apply trim_len_last in E. rewrite Habove in E by lia. discriminate.
Qed.

Lemma blank_at_cell (r : list string) (j : nat) :
  blank_at (String.eqb "") r j = String.eqb "" (nth j r "").
Proof.
  unfold blank_at. revert j. induction r as [|x r IH]; intros [|j];
    try reflexivity. simpl. apply IH.
Qed.

Lemma row_width_above (r : list string) (j : nat) :
  row_width r <= j -> nth j r "" = "".
Proof.
  intros H. apply (trim_len_above (String.eqb "")) in H.
  rewrite blank_at_cell in H. apply String.eqb_eq in H. auto.
Qed.

Lemma row_width_last (r : list string) (m : nat) :
  row_width r = S m -> nth m r "" <> "".
Proof.
  intros H. apply (trim_len_last (String.eqb "")) in H.
  rewrite blank_at_cell in H. intros E. rewrite E in H. discriminate.
Qed.

Lemma row_width_zero (r : list string) :
  row_width r = 0 <-> forall j, nth j r "" = "".
Proof.
  split.
  - intros H j. apply row_width_above. lia.
  - intros H. apply trim_len_unique; [|left; reflexivity].
    intros k _. rewrite blank_at_cell, H. reflexivity.
Qed.

Lemma blank_at_row (g : grid) (i : nat) :
  blank_at (fun r => (row_width r =? 0)%nat) g i = true <->
  forall j, cell_at g i j = "".
Proof.
  unfold blank_at, cell_at.
  destruct (nth_error g i) as [r|] eqn:E.
  - rewrite (nth_error_nth g i [] E), Nat.eqb_eq. apply row_width_zero.
  - apply nth_error_None in E. rewrite (nth_overflow g [] E).
    split; [|reflexivity]. intros _ j. destruct j; reflexivity.
Qed.

Lemma nrows_above (g : grid) (i j : nat) :
  nrows g <= i -> cell_at g i j = "".
Proof.
  intros H. apply (trim_len_above (fun r => (row_width r =? 0)%nat)) in H.
  apply blank_at_row. exact H.
Qed.

Lemma nrows_last (g : grid) (n : nat) :
  nrows g = S n -> exists j, cell_at g n j <> "".
Proof.
  intros H. apply (trim_len_last (fun r => (row_width r =? 0)%nat)) in H.
  unfold blank_at in H. destruct (nth_error g n) as [r|] eqn:E; [|discriminate].
  apply Nat.eqb_neq in H. unfold cell_at. rewrite (nth_error_nth g n [] E).
  destruct (row_width r) as [|m] eqn:Er; [congruence|].
  exists m. apply row_width_last, Er.
Qed.

Lemma nrows_unique (g : grid) (n : nat) :
  (forall i j, n <= i -> cell_at g i j = "") ->
  (n = 0 \/ exists j, cell_at g (n - 1) j <> "") ->
  nrows g = n.
Proof.
  intros Habove Hlast. apply trim_len_unique.
  - intros k Hk. apply blank_at_row. intros j. apply Habove, Hk.
  - destruct Hlast as [->|[j Hj]]; [left; reflexivity|]. right.
    destruct (blank_at _ g (n - 1)) eqn:E; [|reflexivity].
    exfalso. apply Hj. apply (proj1 (blank_at_row g (n - 1)) E).
Qed.

Lemma list_max_attained (l : list nat) (m : nat) :
  list_max l = S m -> In (S m) l.
Proof.
  induction l as [|a l IH]; [discriminate|].
  change (list_max (a :: l)) with (Nat.max a (list_max l)).
  intros H. destruct (Nat.max_spec a (list_max l)) as [[_ E]|[_ E]];
    rewrite E in H.
  - right. apply IH, H.
  - left. exact H.
Qed.

Lemma ncols_above (g : grid) (i j : nat) :
  ncols g <= j -> cell_at g i j = "".
Proof.
  intros H. unfold cell_at.
  destruct (Nat.lt_ge_cases i (List.length g)) as [Hi|Hi].
  - apply row_width_above.
    assert (Hle : list_max (map row_width g) <= ncols g) by reflexivity.
    apply list_max_le in Hle. rewrite Forall_forall in Hle.
    specialize (Hle (row_width (nth i g []))). 
    assert (In (row_width (nth i g [])) (map row_width g))
      by (apply in_map, nth_In, Hi).
    specialize (Hle H0). lia.
  - rewrite (nth_overflow g [] Hi). destruct j; reflexivity.
Qed.

Lemma ncols_last (g : grid) (m : nat) :
  ncols g = S m -> exists i, cell_at g i m <> "".
Proof.
  intros H. apply list_max_attained in H. apply in_map_iff in H as (r & Hr & Hin).
  destruct (In_nth g r [] Hin) as (i & _ & E). exists i.
  unfold cell_at. rewrite E. apply row_width_last, Hr.
Qed.

Lemma ncols_unique (g : grid) (m : nat) :
  (forall i j, m <= j -> cell_at g i j = "") ->
  (m = 0 \/ exists i, cell_at g i (m - 1) <> "") ->
  ncols g = m.
Proof.
  intros Habove Hlast.
  destruct (Nat.lt_trichotomy (ncols g) m) as [Hlt|[Heq|Hgt]]; [|exact Heq|].
  - destruct Hlast as [->|[i Hi]]; [lia|].
    exfalso. apply Hi. apply ncols_above. lia.
  - destruct (ncols g) as [|k] eqn:E; [lia|].
    apply ncols_last in E as [i Hi]. exfalso. apply Hi, Habove. lia.
Qed.

(** What [get_values] returns depends on the cells only. *)
Lemma get_values_ext (g g' : grid) :
  (forall i j, cell_at g i j = cell_at g' i j) -> get_values g = get_values g'.
Proof.
  intros H.
  assert (Hr : nrows g' = nrows g).
  { apply nrows_unique.
    - intros i j Hi. rewrite <- H. apply nrows_above, Hi.
    - destruct (nrows g) as [|n] eqn:E; [left; reflexivity|]. right.
      apply nrows_last in E as [j Hj]. exists j.
      replace (S n - 1) with n by lia. rewrite <- H. exact Hj. }
  assert (Hc : ncols g' = ncols g).
  { apply ncols_unique.
    - intros i j Hj. rewrite <- H. apply ncols_above, Hj.
    - destruct (ncols g) as [|m] eqn:E; [left; reflexivity|]. right.
      apply ncols_last in E as [i Hi]. exists i.
      replace (S m - 1) with m by lia. rewrite <- H. exact Hi. }
  unfold get_values. rewrite Hr, Hc.
  apply map_ext. intros i. apply map_ext. intros j. apply H.
Qed.

Lemma nth_map_seq {A} (f : nat -> A) (n k : nat) (d : A) :
  nth k (map f (seq 0 n)) d = if (k <? n)%nat then f k else d.
Proof.
  destruct (k <? n)%nat eqn:E.
  - apply Nat.ltb_lt in E.
    rewrite (nth_indep _ d (f 0)) by (rewrite length_map, length_seq; exact E).
    rewrite map_nth, seq_nth by exact E. reflexivity.
  - apply Nat.ltb_ge in E. apply nth_overflow.
    rewrite length_map, length_seq. exact E.
Qed.

Lemma cell_at_get_values (g : grid) (i j : nat) :
  cell_at (get_values g) i j = cell_at g i j.
Proof.
  unfold get_values. unfold cell_at at 1. rewrite nth_map_seq.
  destruct (i <? nrows g)%nat eqn:Ei.
  - rewrite nth_map_seq. destruct (j <? ncols g)%nat eqn:Ej; [reflexivity|].
    apply Nat.ltb_ge in Ej. symmetry. apply ncols_above, Ej.
  - apply Nat.ltb_ge in Ei. rewrite (nrows_above g i j Ei).
    destruct j; reflexivity.
Qed.

Lemma get_values_length (g : grid) : List.length (get_values g) = nrows g.
Proof. unfold get_values. rewrite length_map, length_seq. reflexivity. Qed.

Lemma get_values_rect (g : grid) :
  Forall (fun r => List.length r = ncols g) (get_values g).
Proof.
  unfold get_values. apply Forall_map, Forall_forall. intros i _.
  rewrite length_map, length_seq. reflexivity.
Qed.

Lemma nth_overlay_row (new old : list string) (j : nat) :
  nth j (overlay_row new old) ""
  = if (j <? List.length new)%nat then nth j new "" else nth j old "".
Proof.
  unfold overlay_row. destruct (j <? List.length new)%nat eqn:E.
  - apply Nat.ltb_lt in E. apply app_nth1, E.
  - apply Nat.ltb_ge in E. rewrite app_nth2 by exact E.
    rewrite nth_skipn. f_equal. lia.
Qed.

(** The cells of a sheet after an update. *)
Lemma cell_at_overlay (new old : grid) (i j : nat) :
  cell_at (overlay new old) i j
  = if ((i <? List.length new) && (j <? List.length (nth i new [])))%nat
    then cell_at new i j else cell_at old i j.
Proof.
  revert old i. induction new as [|r new IH]; intros old i.
  - reflexivity.
  - destruct i as [|i].
    + unfold cell_at. cbn [overlay nth List.length]. rewrite nth_overlay_row.
      change (0 <? S (List.length new))%nat with true. cbn [andb].
      destruct old; reflexivity.
    + unfold cell_at in *. cbn [overlay nth List.length].
      rewrite IH. change (S i <? S (List.length new))%nat
        with (i <? List.length new)%nat.
      destruct ((i <? List.length new) && (j <? List.length (nth i new [])))%nat;
        [reflexivity|].
      destruct old; [destruct i; reflexivity | reflexivity].
Qed.

(** ** The clear step *)

Lemma labels_with_present (cols : list string) (c : string) :
  In c cols -> labels_with cols c = cols.
Proof.
  intros H. unfold labels_with.
  rewrite (proj2 (existsb_eqb_In c cols) H). reflexivity.
Qed.

Lemma setitem_scalar_length (df : DataFrame) (c : string) (v : cell) :
  List.length (values (setitem_scalar df c v)) = List.length (values df).
Proof. unfold setitem_scalar. apply setitem_length, length_map. Qed.

(** Blanking the columns of a frame one label after the other. *)
Lemma blank_columns (l : list string) (e : DataFrame) :
  wf e -> (forall c, In c l -> In c (columns e)) ->
  let e' := fold_left (fun e c => setitem_scalar e c (Str "")) l e in
  columns e' = columns e /\ wf e' /\
  List.length (values e') = List.length (values e) /\
  forall c, In c l \/ column_is e c (Str "") -> column_is e' c (Str "").
Proof.
  revert e. induction l as [|c0 l IH]; intros e Hwf Hin.
  - cbn. split; [reflexivity|]. split; [exact Hwf|]. split; [reflexivity|].
    intros c [[]|H]. exact H.
  - cbn [fold_left].
    set (e1 := setitem_scalar e c0 (Str "")).
    assert (Hc1 : columns e1 = columns e).
    { apply labels_with_present, Hin. left. reflexivity. }
    assert (Hwf1 : wf e1) by (apply setitem_wf, Hwf).
    destruct (IH e1 Hwf1) as (Hc & Hwf' & Hlen & Hcol).
    { intros c Hcl. rewrite Hc1. apply Hin. right. exact Hcl. }
    split; [congruence|]. split; [exact Hwf'|]. split.
    { rewrite Hlen. apply setitem_scalar_length. }
    intros c Hcl. apply Hcol.
    destruct (string_dec c c0) as [->|Hne].
    + right. apply setitem_column_is, Hwf.
    + destruct Hcl as [[E|Hcl]|Hcl]; [congruence | left; exact Hcl |].
      right. apply setitem_keeps_column; assumption.
Qed.

Lemma pick_covers (cols : list string) (row : list cell) (x : cell) :
  List.length row = List.length cols -> In x row ->
  exists l, In l cols /\ In x (pick l cols row).
Proof.
  revert row. induction cols as [|l0 cols IH]; intros row Hlen Hx.
  - destruct row; [contradiction|discriminate].
  - destruct row as [|y row]; [contradiction|]. injection Hlen as Hlen.
    destruct Hx as [->|Hx].
    + exists l0. split; [left; reflexivity|]. simpl.
      rewrite String.eqb_refl. left. reflexivity.
    + destruct (IH row Hlen Hx) as (l & Hl & Hp). exists l.
      split; [right; exact Hl|]. simpl.
      destruct (String.eqb l0 l); [right|]; exact Hp.
Qed.

Lemma Forall_eq_repeat {A} (v : A) (l : list A) :
  Forall (eq v) l -> l = repeat v (List.length l).
Proof.
  induction 1 as [|x l Hx _ IH]; [reflexivity|].
  simpl. rewrite <- IH, Hx. reflexivity.
Qed.

Lemma json_cells (l : list string) : mapM json_cell (map Str l) = Ok l.
Proof.
  induction l as [|x l IH]; [reflexivity|].
  cbn [map mapM json_cell rbind]. rewrite IH. reflexivity.
Qed.

Lemma json_table (t : list (list string)) :
  json_values (map (map Str) t) = Ok t.
Proof.
  unfold json_values. induction t as [|r t IH]; [reflexivity|].
  cbn [map mapM]. rewrite json_cells. cbn [rbind]. rewrite IH. reflexivity.
Qed.

Lemma eraser_rect (h : list string) (rows : list (list string)) :
  Forall (fun r => List.length r = List.length h) rows ->
  exists e, eraser (h :: rows) = Ok e /\
            json_values (frame_table e) = Ok (blanked h rows).
Proof.
  intros Hrect. unfold eraser. cbn [rbind tl].
  rewrite (mk_frame_rect rows h Hrect). cbn [rbind columns].
  set (e0 := {| columns := h; values := map (map Str) rows |}).
  assert (Hwf0 : wf e0).
  { unfold wf. cbn [columns values]. apply Forall_map.
    eapply Forall_impl; [|exact Hrect]. intros r Hr. cbn beta.
    rewrite length_map. exact Hr. }
  destruct (blank_columns h e0 Hwf0 (fun c H => H)) as (Hc & Hwf & Hlen & Hcol).
  set (e := fold_left _ h e0) in *.
  exists e. split; [reflexivity|].
  assert (Hrows : values e = repeat (repeat (Str "") (List.length h))
                                    (List.length rows)).
  { replace (List.length rows) with (List.length (values e))
      by (rewrite Hlen; apply length_map).
    apply Forall_eq_repeat, Forall_forall. intros r Hr.
    pose proof (wf_row e r Hwf Hr) as Hl. rewrite Hc in Hl. cbn in Hl.
    rewrite <- Hl. symmetry. apply Forall_eq_repeat, Forall_forall.
    intros x Hx.
    destruct (pick_covers h r x Hl Hx) as (l & Hlh & Hp).
    destruct (Hcol l (or_introl Hlh)) as [_ Hall].
    destruct (Hall r Hr) as [_ HF]. rewrite Hc in HF. cbn [columns e0] in HF.
    rewrite Forall_forall in HF. apply HF, Hp. }
  unfold frame_table. rewrite Hc, Hrows. cbn [columns].
  replace (repeat (repeat (Str "") (List.length h)) (List.length rows))
    with (map (map Str) (repeat (repeat "" (List.length h)) (List.length rows)))
    by (rewrite !map_repeat; reflexivity).
  apply (json_table (blanked h rows)).
Qed.

Lemma get_values_cons_rect (g : grid) (h : list string)
  (rows : list (list string)) :
  get_values g = h :: rows ->
  List.length h = ncols g /\ S (List.length rows) = nrows g /\
  Forall (fun r => List.length r = List.length h) rows.
Proof.
  intros E. pose proof (get_values_rect g) as Hrect.
  pose proof (get_values_length g) as Hlen. rewrite E in Hrect, Hlen.
  inversion Hrect as [|? ? Hh Hrows]; subst.
  split; [exact Hh|]. split; [exact Hlen|].
  eapply Forall_impl; [|exact Hrows]. intros r Hr. cbn beta in Hr. congruence.
Qed.

Lemma empty_sheet_inv (w w' : world) :
  empty_sheet w = (Ok tt, w') ->
  exists h rows,
    get_values (progress_sheet w) = h :: rows /\
    w' = set_progress (overlay (blanked h rows) (progress_sheet w)) w.
Proof.
  unfold empty_sheet, progress_get_values, progress_update, bind, external, lift.
  destruct (fails w ProgressGetValues); [discriminate|].
  destruct (get_values (progress_sheet w)) as [|h rows] eqn:E; [discriminate|].
  destruct (get_values_cons_rect _ _ _ E) as (_ & _ & Hrect).
  destruct (eraser_rect h rows Hrect) as (e & He & Hj). rewrite He, Hj.
  destruct (fails w EraserUpdate); [discriminate|].
  intros H. injection H as <-. exists h, rows. split; reflexivity.
Qed.

Lemma nth_repeat_lt {A} (a d : A) (m k : nat) :
  k < m -> nth k (repeat a m) d = a.
Proof.
  revert k. induction m as [|m IH]; intros k H; [lia|].
  destruct k as [|k]; [reflexivity|]. simpl. apply IH. lia.
Qed.

Lemma nth_blank_row (n j : nat) : nth j (repeat "" n) "" = "".
Proof.
  revert j. induction n as [|n IH]; intros [|j]; try reflexivity. apply IH.
Qed.

(** After the clear step the sheet holds its first row and nothing else. *)
Lemma cleared_cells (g : grid) (h : list string) (rows : list (list string))
  (i j : nat) :
  get_values g = h :: rows ->
  cell_at (overlay (blanked h rows) g) i j
  = if (i =? 0)%nat then cell_at g 0 j else "".
Proof.
  intros E. destruct (get_values_cons_rect _ _ _ E) as (Hh & Hn & _).
  assert (Hhead : forall k, nth k h "" = cell_at g 0 k).
  { intros k. rewrite <- cell_at_get_values, E. reflexivity. }
  rewrite cell_at_overlay. unfold blanked. cbn [List.length].
  rewrite repeat_length. destruct i as [|i].
  - cbn [nth Nat.eqb]. change (0 <? S (List.length rows))%nat with true.
    cbn [andb]. unfold cell_at at 1. cbn [nth]. rewrite Hhead.
    destruct (j <? List.length h)%nat; reflexivity.
  - cbn [Nat.eqb]. unfold cell_at at 1. cbn [nth].
    change (S i <? S (List.length rows))%nat with (i <? List.length rows)%nat.
    destruct (i <? List.length rows)%nat eqn:Ei.
    + apply Nat.ltb_lt in Ei. rewrite (nth_repeat_lt _ [] _ _ Ei).
      rewrite repeat_length. cbn [andb].
      destruct (j <? List.length h)%nat eqn:Ej; [apply nth_blank_row|].
      apply Nat.ltb_ge in Ej. apply ncols_above. lia.
    + apply Nat.ltb_ge in Ei. cbn [andb]. apply nrows_above. lia.
Qed.

(** C10. The clear step keeps the header row: the table [empty_sheet]
    writes back begins with the header row it read, over rows of empty
    strings, so that the first row of the sheet holds what it held and
    every cell below it is empty; nothing else in the world changes. *)
Theorem empty_sheet_keeps_header (w w' : world) :
  empty_sheet w = (Ok tt, w') ->
  exists h rows,
    get_values (progress_sheet w) = h :: rows /\
    progress_sheet w'
    = overlay (h :: repeat (repeat "" (List.length h)) (List.length rows))
              (progress_sheet w) /\
    (forall j, cell_at (progress_sheet w') 0 j = cell_at (progress_sheet w) 0 j) /\
    (forall i j, 1 <= i -> cell_at (progress_sheet w') i j = "") /\
    form_sheet w' = form_sheet w /\ log_txt w' = log_txt w /\
    readme_md w' = readme_md w.
Proof.
  intros H. apply empty_sheet_inv in H as (h & rows & E & ->).
  exists h, rows. cbn [progress_sheet set_progress form_sheet log_txt readme_md].
  split; [exact E|]. split; [reflexivity|]. split.
  - intros j. apply (cleared_cells _ h rows 0 j E).
  - split; [|repeat split].
    intros i j Hi. rewrite (cleared_cells _ h rows i j E).
    destruct i; [lia|reflexivity].
Qed.

(** ** The synchronisation *)

Section SyncProperties.

Variable to_mdY : string -> result cell.

Lemma sync_inv (w w' : world) :
  sync to_mdY w = (Ok tt, w') ->
  exists t h rows,
    sync_table to_mdY (get_values (form_sheet w)) = Ok t /\
    get_values (progress_sheet w) = h :: rows /\
    w' = snd (logger "INFO" "Job successfully completed"
                (set_progress
                   (overlay t (overlay (blanked h rows) (progress_sheet w))) w)).
Proof.
  unfold sync, form_get_values, bind, external, lift.
  destruct (fails w GetCreds); cbv beta iota; [intros; discriminate|].
  destruct (fails w Authorize); cbv beta iota; [intros; discriminate|].
  destruct (fails w OpenForm); cbv beta iota; [intros; discriminate|].
  destruct (fails w FormGetValues); cbv beta iota; [intros; discriminate|].
  destruct (make_callings_data to_mdY (get_values (form_sheet w)))
    as [calling_df|] eqn:Hm; cbv beta iota; [|intros; discriminate].
  destruct (get_filtered_data calling_df) as [updated_df|] eqn:Hg;
    cbv beta iota; [|intros; discriminate].
  destruct (fails w OpenProgress); cbv beta iota; [intros; discriminate|].
  destruct (empty_sheet w) as [[[]|] w1] eqn:Hes; cbv beta iota;
    [|intros; discriminate].
  apply empty_sheet_inv in Hes as (h & rows & E & ->).
  unfold progress_update, bind, external, lift.
  destruct (json_values (frame_table updated_df)) as [t|] eqn:Hj;
    cbv beta iota; [|intros; discriminate].
  cbn [fails set_progress].
  destruct (fails w ProgressUpdate); cbv beta iota; [intros; discriminate|].
  intros H. exists t, h, rows.
  split; [unfold sync_table; rewrite Hm; cbn [rbind]; rewrite Hg; exact Hj|].
  split; [exact E|].
  unfold logger in H. injection H as <-. reflexivity.
Qed.

(** The cells of the progress sheet after a run that did not raise. *)
Lemma sync_cells (w w' : world) :
  sync to_mdY w = (Ok tt, w') ->
  exists t,
    sync_table to_mdY (get_values (form_sheet w)) = Ok t /\
    forall i j,
      cell_at (progress_sheet w') i j
      = if within t i j then cell_at t i j
        else if (i =? 0)%nat then cell_at (progress_sheet w) 0 j else "".
Proof.
  intros H. apply sync_inv in H as (t & h & rows & Ht & E & ->).
  exists t. split; [exact Ht|]. intros i j.
  cbn [logger snd progress_sheet set_log set_progress].
  rewrite cell_at_overlay. fold (within t i j).
  rewrite (cleared_cells _ h rows i j E). reflexivity.
Qed.

End SyncProperties.

Lemma cell_at_outside (t : list (list string)) (i j : nat) :
  within t i j = false -> cell_at t i j = "".
Proof.
  unfold within, cell_at. intros H. apply andb_false_iff in H as [H|H].
  - apply Nat.ltb_ge in H. rewrite (nth_overflow t [] H). destruct j; reflexivity.
  - apply Nat.ltb_ge in H. apply nth_overflow, H.
Qed.

Lemma table_of_cells (t : list (list string)) (n : nat) :
  Forall (fun r => List.length r = n) t ->
  map (fun i => map (fun j => cell_at t i j) (seq 0 n)) (seq 0 (List.length t)) = t.
Proof.
  intros H. apply (nth_ext _ _ [] []).
  - rewrite length_map, length_seq. reflexivity.
  - intros i Hi. rewrite length_map, length_seq in Hi.
    rewrite nth_map_seq. apply Nat.ltb_lt in Hi. rewrite Hi.
    apply Nat.ltb_lt in Hi. rewrite Forall_forall in H.
    pose proof (H (nth i t []) (nth_In t [] Hi)) as Hr.
    apply (nth_ext _ _ "" "").
    + rewrite length_map, length_seq. symmetry. exact Hr.
    + intros j Hj. rewrite length_map, length_seq in Hj.
      rewrite nth_map_seq. apply Nat.ltb_lt in Hj. rewrite Hj. reflexivity.
Qed.

(** A table in the form [get_values] returns reads back as itself. *)
Lemma get_values_table (h : list string) (rows : list (list string)) :
  h <> [] -> Forall (fun c => c <> "") h ->
  Forall (fun r => List.length r = List.length h) rows ->
  Forall (fun r => exists j, nth j r "" <> "") rows ->
  get_values (h :: rows) = h :: rows.
Proof.
  intros Hne Hh Hrect Hfull. set (t := h :: rows).
  assert (Hrect' : Forall (fun r => List.length r = List.length h) t)
    by (constructor; [reflexivity | exact Hrect]).
  assert (Hhd : nth 0 h "" <> "").
  { destruct h as [|c h]; [congruence|]. inversion Hh; subst. assumption. }
  assert (Hr : nrows t = List.length t).
  { apply nrows_unique.
    - intros i j Hi. apply cell_at_outside. unfold within.
      apply andb_false_iff. left. apply Nat.ltb_ge, Hi.
    - right.
      replace (List.length t - 1) with (List.length rows)
        by (unfold t; simpl; lia).
      destruct (List.length rows) as [|n] eqn:En.
      + exists 0. exact Hhd.
      + rewrite Forall_forall in Hfull.
        apply (Hfull (nth n rows [])), nth_In. lia. }
  assert (Hc : ncols t = List.length h).
  { apply ncols_unique.
    - intros i j Hj. apply cell_at_outside. unfold within.
      destruct (i <? List.length t)%nat eqn:Ei; [|reflexivity].
      apply Nat.ltb_lt in Ei. rewrite Forall_forall in Hrect'.
      rewrite (Hrect' (nth i t []) (nth_In t [] Ei)).
      apply Nat.ltb_ge, Hj.
    - right. exists 0. unfold cell_at, t. cbn [nth].
      rewrite Forall_forall in Hh. apply Hh, nth_In.
      destruct h; [congruence | simpl; lia]. }
  unfold get_values. rewrite Hr, Hc. apply table_of_cells, Hrect'.
Qed.

Lemma json_cells_inv (r : list cell) (r' : list string) :
  mapM json_cell r = Ok r' -> r = map Str r'.
Proof.
  revert r'. induction r as [|x r IH]; intros r' H.
  - inversion H. reflexivity.
  - cbn [mapM] in H. destruct x as [s|]; [|discriminate].
    cbn [json_cell rbind] in H.
    destruct (mapM json_cell r) as [t|]; [|discriminate].
    cbn [rbind] in H. inversion H. simpl. rewrite (IH t eq_refl). reflexivity.
Qed.

Lemma json_values_inv (rows : list (list cell)) (t : list (list string)) :
  json_values rows = Ok t -> rows = map (map Str) t.
Proof.
  unfold json_values. revert t. induction rows as [|r rows IH]; intros t H.
  - inversion H. reflexivity.
  - cbn [mapM] in H. destruct (mapM json_cell r) as [r'|] eqn:Er;
      [|discriminate].
    cbn [rbind] in H.
    destruct (mapM (mapM json_cell) rows) as [t'|]; [|discriminate].
    cbn [rbind] in H. inversion H. simpl.
    rewrite (json_cells_inv r r' Er), (IH t' eq_refl). reflexivity.
Qed.

Lemma keeps_not_blank : Forall (fun k => k <> "") keeps.
Proof. unfold keeps. repeat constructor; discriminate. Qed.

Lemma picked_length (cols labels : list string) (r : list cell) :
  List.length r = List.length cols ->
  List.length (flat_map (fun k => pick k cols r) labels)
  = List.length (flat_map (fun k => filter (String.eqb k) cols) labels).
Proof.
  intros H. induction labels as [|k labels IH]; [reflexivity|].
  simpl. rewrite !length_app, IH, (pick_length k cols r H). reflexivity.
Qed.

Lemma approved_not_blank (c : cell) :
  str_strip_lower_0 c = Str "y" -> exists s, c = Str s /\ s <> "".
Proof.
  destruct c as [s|]; [|discriminate]. intros H. exists s.
  split; [reflexivity|]. intros ->. discriminate.
Qed.

Section TableProperties.

Variable to_mdY : string -> result cell.

(** The shape of the table a run writes. *)
Lemma sync_table_shape (form_data : list (list string)) (t : list (list string)) :
  sync_table to_mdY form_data = Ok t ->
  exists h rows,
    t = h :: rows /\ h <> [] /\ Forall (fun c => c <> "") h /\
    Forall (fun r => List.length r = List.length h) rows /\
    Forall (fun r => exists j, nth j r "" <> "") rows.
Proof.
  unfold sync_table.
  destruct (make_callings_data to_mdY form_data) as [df|] eqn:Hm;
    [|discriminate].
  cbn [rbind]. destruct (get_filtered_data df) as [out|] eqn:Hg;
    [|discriminate].
  cbn [rbind]. intros Hj. apply json_values_inv in Hj.
  apply make_callings_data_facts in Hm as (Hwf & _ & _ & [c Hba] & Hclean).
  apply get_filtered_data_inv in Hg as (_ & _ & Hk & ->).
  unfold frame_table in Hj. cbn [columns values] in Hj.
  destruct t as [|h rows]; [discriminate|].
  cbn [map] in Hj.
  pose proof (f_equal (hd []) Hj) as Hh. pose proof (f_equal (@tl _) Hj) as Hrows.
  cbn [hd tl] in Hh, Hrows. clear Hj.
  apply (f_equal (map (fun c => match c with Str s => s | NaN => "" end))) in Hh.
  rewrite !map_map, !map_id in Hh. subst h.
  exists (flat_map (fun k => filter (String.eqb k) (columns df)) keeps), rows.
  split; [reflexivity|]. split; [|split; [|split]].
  - assert (Hin : In "DateRequested"
                    (flat_map (fun k => filter (String.eqb k) (columns df)) keeps)).
    { apply in_flat_map. exists "DateRequested". split; [left; reflexivity|].
      apply filter_In. split; [apply Hk; left; reflexivity | reflexivity]. }
    intros E. rewrite E in Hin. exact Hin.
  - apply Forall_forall. intros x Hx. apply in_flat_map in Hx as (k & Hkk & Hx).
    apply filter_In in Hx as [_ Hx]. apply String.eqb_eq in Hx. subst x.
    pose proof keeps_not_blank as Hnb. rewrite Forall_forall in Hnb.
    apply Hnb, Hkk.
  - apply Forall_forall. intros r Hr.
    assert (Hin : In (map Str r) (map (map Str) rows)) by (apply in_map, Hr).
    rewrite <- Hrows in Hin. apply in_map_iff in Hin as (r0 & E & Hr0).
    apply filter_In in Hr0 as [Hr0 _].
    rewrite <- (length_map Str r), <- E.
    apply picked_length, (wf_row df r0 Hwf Hr0).
  - apply Forall_forall. intros r Hr.
    assert (Hin : In (map Str r) (map (map Str) rows)) by (apply in_map, Hr).
    rewrite <- Hrows in Hin. apply in_map_iff in Hin as (r0 & E & Hr0).
    apply filter_In in Hr0 as [Hr0 Hsel].
    unfold selected in Hsel. apply andb_true_iff in Hsel as [Hy _].
    destruct (field (columns df) r0 "cleaned_approval_text") as [y|] eqn:Ey;
      [|discriminate].
    cbn [cell_eqb] in Hy. apply String.eqb_eq in Hy. subst y.
    rewrite (Hclean r0 Hr0) in Ey.
    apply approved_not_blank in Ey as (s & Es & Hs).
    assert (Hp : In (Str s) (pick "BishopApproval" (columns df) r0)).
    { unfold field in Es.
      destruct (pick "BishopApproval" (columns df) r0); [discriminate|].
      left. exact Es. }
    assert (Hs' : In (Str s) (map Str r)).
    { rewrite <- E. apply in_flat_map. exists "BishopApproval".
      split; [|exact Hp]. unfold keeps. simpl. tauto. }
    apply in_map_iff in Hs' as (s' & Es' & Hin'). injection Es' as ->.
    destruct (In_nth r s "" Hin') as (j & _ & Ej). exists j. congruence.
Qed.

End TableProperties.

Lemma table_row_full (h : list string) (rows : list (list string)) (i : nat) :
  h <> [] -> Forall (fun c => c <> "") h ->
  Forall (fun r => exists j, nth j r "" <> "") rows ->
  i < S (List.length rows) ->
  exists j, within (h :: rows) i j = true /\ cell_at (h :: rows) i j <> "".
Proof.
  intros Hne Hh Hfull Hi.
  assert (Hex : exists j, nth j (nth i (h :: rows) []) "" <> "").
  { destruct i as [|i].
    - exists 0. destruct h as [|c h]; [congruence|]. inversion Hh; subst.
      assumption.
    - rewrite Forall_forall in Hfull. apply (Hfull (nth i rows [])), nth_In.
      lia. }
  destruct Hex as [j Hj]. exists j. split; [|exact Hj].
  unfold within. apply andb_true_iff. split.
  - apply Nat.ltb_lt. cbn [List.length]. exact Hi.
  - apply Nat.ltb_lt. destruct (Nat.lt_ge_cases j (List.length (nth i (h :: rows) [])))
      as [Hlt|Hge]; [exact Hlt|].
    exfalso. apply Hj. apply nth_overflow, Hge.
Qed.

Section SyncTheorems.

Variable to_mdY : string -> result cell.

(** C2, as the code has it. After a run that did not raise, the progress
    sheet holds the table of the filtered frame, header row first, from A1
    on; every cell outside that table is empty except in the first row,
    which keeps what the sheet held there; so the sheet has exactly as
    many data rows as the filter returned, none left over from before, and
    where the sheet was no wider than the table it holds the table and
    nothing else. *)
Theorem sync_destination (w w' : world) :
  sync to_mdY w = (Ok tt, w') ->
  exists h rows,
    sync_table to_mdY (get_values (form_sheet w)) = Ok (h :: rows) /\
    List.length (get_values (progress_sheet w')) = S (List.length rows) /\
    (forall i j,
       cell_at (progress_sheet w') i j
       = if within (h :: rows) i j then cell_at (h :: rows) i j
         else if (i =? 0)%nat then cell_at (progress_sheet w) 0 j else "") /\
    (ncols (progress_sheet w) <= List.length h ->
       get_values (progress_sheet w') = h :: rows).
Proof.
  intros H. apply sync_cells in H as (t & Ht & Hcells).
  destruct (sync_table_shape to_mdY _ _ Ht) as (h & rows & -> & Hne & Hh & Hrect & Hfull).
  exists h, rows. split; [exact Ht|]. split; [|split; [exact Hcells|]].
  - rewrite get_values_length. apply nrows_unique.
    + intros i j Hi. rewrite Hcells.
      replace (within (h :: rows) i j) with false.
      * destruct i; [lia|reflexivity].
      * symmetry. unfold within. apply andb_false_iff. left.
        apply Nat.ltb_ge. cbn [List.length]. exact Hi.
    + right. replace (S (List.length rows) - 1) with (List.length rows) by lia.
      destruct (table_row_full h rows (List.length rows) Hne Hh Hfull)
        as (j & Hin & Hj); [lia|].
      exists j. rewrite Hcells, Hin. exact Hj.
  - intros Hw. rewrite <- (get_values_table h rows Hne Hh Hrect Hfull).
    apply get_values_ext. intros i j. rewrite Hcells.
    destruct (within (h :: rows) i j) eqn:Hin; [reflexivity|].
    rewrite (cell_at_outside _ _ _ Hin).
    destruct i as [|i]; [|reflexivity]. cbn [Nat.eqb].
    apply ncols_above. unfold within in Hin. cbn in Hin.
    apply Nat.ltb_ge in Hin. lia.
Qed.

(** C8. Two runs in a row that do not raise, the second on the progress
    sheet the first one left and on a form sheet with the same values,
    leave the same destination table; a run does not touch the form
    sheet. *)
Theorem sync_idempotent (w1 w1' w2 w2' : world) :
  sync to_mdY w1 = (Ok tt, w1') ->
  get_values (form_sheet w2) = get_values (form_sheet w1) ->
  progress_sheet w2 = progress_sheet w1' ->
  sync to_mdY w2 = (Ok tt, w2') ->
  get_values (progress_sheet w2') = get_values (progress_sheet w1') /\
  form_sheet w1' = form_sheet w1.
Proof.
  intros H1 Hform Hprog H2. split.
  - apply sync_cells in H1 as (t1 & Ht1 & Hc1).
    apply sync_cells in H2 as (t2 & Ht2 & Hc2).
    rewrite Hform, Ht1 in Ht2. injection Ht2 as <-.
    apply get_values_ext. intros i j. rewrite Hc2, Hprog.
    destruct (within t1 i j) eqn:Hin.
    + rewrite Hc1, Hin. reflexivity.
    + destruct i as [|i]; [reflexivity|]. cbn [Nat.eqb].
      rewrite Hc1, Hin. reflexivity.
  - apply sync_inv in H1 as (t & h & rows & _ & _ & ->). reflexivity.
Qed.

End SyncTheorems.

(** ** The failure boundary of [main] *)




Section MainProperties.

Variable to_mdY : string -> result cell.

Lemma empty_sheet_files (w : world) :
  readme_md (snd (empty_sheet w)) = readme_md w /\
  asctime (snd (empty_sheet w)) = asctime w /\
  log_txt (snd (empty_sheet w)) = log_txt w /\
  fails (snd (empty_sheet w)) = fails w.
Proof.
  unfold empty_sheet, progress_get_values, progress_update, bind, external, lift.
  destruct (fails w ProgressGetValues); cbv beta iota; [repeat split|].
  destruct (eraser (get_values (progress_sheet w))) as [e|]; cbv beta iota;
    [|repeat split].
  destruct (json_values (frame_table e)); cbv beta iota; [|repeat split].
  destruct (fails w EraserUpdate); repeat split.
Qed.

(** What a run of the [try] block leaves of the log and of the status
    document. *)
Lemma sync_files (w : world) :
  readme_md (snd (sync to_mdY w)) = readme_md w /\
  match fst (sync to_mdY w) with
  | Ok _ =>
      log_txt (snd (sync to_mdY w))
      = Some (match log_txt w with Some s => s | None => "" end
              ++ log_record (asctime w) "INFO" "Job successfully completed")%string
  | Raise _ =>
      log_txt (snd (sync to_mdY w)) = log_txt w /\
      asctime (snd (sync to_mdY w)) = asctime w
  end.
Proof.
  unfold sync, form_get_values, bind, external, lift.
  destruct (fails w GetCreds); cbv beta iota; [repeat split|].
  destruct (fails w Authorize); cbv beta iota; [repeat split|].
  destruct (fails w OpenForm); cbv beta iota; [repeat split|].
  destruct (fails w FormGetValues); cbv beta iota; [repeat split|].
  destruct (make_callings_data to_mdY (get_values (form_sheet w)))
    as [calling_df|]; cbv beta iota; [|repeat split].
  destruct (get_filtered_data calling_df) as [updated_df|]; cbv beta iota;
    [|repeat split].
  destruct (fails w OpenProgress); cbv beta iota; [repeat split|].
  destruct (empty_sheet_files w) as (Hr & Ha & Hl & Hf).
  destruct (empty_sheet w) as [[[]|] w1]; cbn [snd] in *; cbv beta iota;
    [|repeat split; assumption].
  unfold progress_update, bind, external, lift.
  destruct (json_values (frame_table updated_df)) as [t|]; cbv beta iota;
    [|repeat split; assumption].
  rewrite Hf. destruct (fails w ProgressUpdate); cbv beta iota;
    [repeat split; assumption|].
  unfold logger. cbn [fst snd readme_md log_txt set_log set_progress asctime].
  rewrite Hr, Ha, Hl. split; reflexivity.
Qed.

Lemma guarded_sync_run (w : world) :
  exists w2 level message,
    guarded_sync to_mdY w = (Ok tt, w2) /\
    readme_md w2 = readme_md w /\
    log_txt w2
    = Some (match log_txt w with Some s => s | None => "" end
            ++ log_record (asctime w) level message)%string /\
    ((level, message) = ("INFO", "Job successfully completed") /\
     (exists w1, sync to_mdY (snd (basicConfig w)) = (Ok tt, w1) /\ w2 = w1)
     \/
     (level, message) = ("ERROR", "Job failed") /\
     (exists e w1, sync to_mdY (snd (basicConfig w)) = (Raise e, w1) /\
                   w2 = snd (logger "ERROR" "Job failed" w1))).
Proof.
  unfold guarded_sync, bind, try_except. cbn [basicConfig fst snd].
  set (w0 := set_log match log_txt w with Some s => s | None => "" end w).
  destruct (sync_files w0) as (Hr & Hl).
  destruct (sync to_mdY w0) as [[[]|e] w1] eqn:Hs; cbn [fst snd] in *.
  - exists w1, "INFO", "Job successfully completed".
    split; [reflexivity|]. split; [exact Hr|]. split; [exact Hl|].
    left. split; [reflexivity|]. exists w1. split; reflexivity.
  - destruct Hl as [Hl Ha].
    exists (snd (logger "ERROR" "Job failed" w1)), "ERROR", "Job failed".
    split; [reflexivity|]. split; [exact Hr|]. split.
    + unfold logger. cbn [snd log_txt set_log]. rewrite Hl, Ha. reflexivity.
    + right. split; [reflexivity|]. exists e, w1. split; reflexivity.
Qed.

Lemma main_split (w : world) :
  main to_mdY w
  = match guarded_sync to_mdY w with
    | (Ok _, w2) => housekeeping w2
    | (Raise e, w2) => (Raise e, w2)
    end.
Proof.
  unfold main, guarded_sync, housekeeping, bind. cbn [basicConfig].
  destruct (try_except _ _ _) as [[[]|e] w2]; reflexivity.
Qed.


End MainProperties.

(** ** The claims on the sample data *)

Lemma sample_frame_wf : wf Sample.frame.
Proof. unfold wf. repeat constructor. Qed.

Lemma sample_frame_labels (k : string) :
  In k needed -> carried_once (columns Sample.frame) k.
Proof.
  intros Hk. simpl in Hk.
  repeat (destruct Hk as [<-|Hk]; [reflexivity|]). contradiction.
Qed.

Lemma get_filtered_data_exact_witness :
  wf Sample.frame /\
  get_filtered_data Sample.frame
  = Ok {| columns := keeps;
          values := [ [Str "04/10/2022"; Str "Ann"; Str "Teacher";
                       Str "Primary"; Str "Bob"; Str "May"; Str " Yes";
                       Str ""; Str ""; Str ""];
                      [Str "04/13/2022"; Str "Fay"; Str "Greeter";
                       Str "Ward"; Str "Eve"; Str "June"; Str "Y";
                       Str ""; Str "x"; Str ""] ] |}.
Proof.
  split; [exact sample_frame_wf|].
  exact (proj1 (get_filtered_data_exact Sample.frame) sample_frame_wf
           sample_frame_labels).
Defined.

(** C1, as the specification has it, fails: on the frame of a sheet that
    carries the calling under two columns, both of which are labelled
    [Calling] once renamed, the filter returns eleven columns, not the ten
    fixed ones. *)
Lemma get_filtered_data_duplicate_label :
  make_callings_data Sample.to_mdY Duplicate.form = Ok Duplicate.frame /\
  wf Duplicate.frame /\
  get_filtered_data Duplicate.frame = Ok Duplicate.out /\
  columns Duplicate.out <> keeps /\
  List.length (columns Duplicate.out) = 11 /\
  List.length (filter (String.eqb "Calling") (columns Duplicate.out)) = 2.
Proof.
  split; [vm_compute; reflexivity|].
  split; [unfold wf; repeat constructor|].
  split; [vm_compute; reflexivity|].
  split; [|split; reflexivity].
  intros H. apply (f_equal (@List.length string)) in H. discriminate H.
Qed.

Lemma sync_destination_witness :
  sync Sample.to_mdY Sample.w = (Ok tt, Sample.synced) /\
  exists h rows,
    sync_table Sample.to_mdY (get_values (form_sheet Sample.w)) = Ok (h :: rows) /\
    List.length (get_values (progress_sheet Sample.synced)) = S (List.length rows).
Proof.
  assert (H : sync Sample.to_mdY Sample.w = (Ok tt, Sample.synced))
    by (vm_compute; reflexivity).
  split; [exact H|].
  destruct (sync_destination Sample.to_mdY Sample.w Sample.synced H)
    as (h & rows & Ht & Hl & _).
  exists h, rows. split; [exact Ht | exact Hl].
Defined.

(** C2, as the specification has it, fails: the sample progress sheet has
    an eleventh header cell, and after a run that did not raise the sheet
    does not hold the header row followed by the filtered rows and nothing
    else. *)
Lemma sync_destination_header_stays :
  sync Sample.to_mdY Sample.w = (Ok tt, Sample.synced) /\
  sync_table Sample.to_mdY (get_values (form_sheet Sample.w)) = Ok Sample.table /\
  get_values (progress_sheet Sample.synced) <> Sample.table /\
  cell_at (get_values (progress_sheet Sample.synced)) 0 10 = "Notes".
Proof.
  split; [vm_compute; reflexivity|]. split; [vm_compute; reflexivity|].
  split; [|vm_compute; reflexivity].
  intros H. apply (f_equal (fun t => List.length (hd [] t))) in H.
  vm_compute in H. discriminate H.
Qed.



Lemma add_log_to_readme_entry_witness :
  readme_md Sample.w_entry = Some Sample.status /\
  Sample.status <> "" /\
  Py.get_last (Py.readlines
                 (Sample.log25
                  ++ "2024-01-01 10:00:00  INFO   Job successfully completed"))
  = Ok "2024-01-01 10:00:00  INFO   Job successfully completed" /\
  exists readme',
    add_log_to_readme Sample.w_entry = (Ok tt, set_readme readme' Sample.w_entry) /\
    Py.get_last (Py.readlines readme')
    = Ok "- 2024-01-01 10:00:00 UTC: Job successfully completed".
Proof.
  assert (Hne : Sample.status <> "") by discriminate.
  assert (Hlast : Py.get_last (Py.readlines
                    (Sample.log25
                     ++ "2024-01-01 10:00:00  INFO   Job successfully completed"))
                  = Ok "2024-01-01 10:00:00  INFO   Job successfully completed")
    by (vm_compute; reflexivity).
  split; [reflexivity|]. split; [exact Hne|]. split; [exact Hlast|].
  destruct (add_log_to_readme_entry Sample.w_entry Sample.status _ _
              "2024-01-01 10:00:00" "INFO" [" Job successfully completed"]
              eq_refl Hne eq_refl Hlast eq_refl)
    as (readme' & Hrun & Hline & _).
  exists readme'. split; [exact Hrun|]. rewrite Hline. reflexivity.
Defined.


Lemma sample_timestamps_parse (r : list string) (t : string) :
  In r Sample.rows ->
  field (rename_labels simplified_name_map Sample.header) (map Str r) "Timestamp"
  = Str t ->
  exists d, Sample.to_mdY t = Ok d.
Proof.
  intros Hin. simpl in Hin.
  destruct Hin as [<-|[<-|[<-|[<-|[]]]]]; vm_compute; intros H;
    injection H as <-; eexists; reflexivity.
Qed.

Lemma blank_approval_not_approved_witness :
  Forall (fun r => List.length r = List.length Sample.header) Sample.rows /\
  exists df,
    make_callings_data Sample.to_mdY (Sample.header :: Sample.rows) = Ok df /\
    map (fun r => field (columns df) r "BishopApproval") (values df)
    = [Str " Yes"; Str "yes"; Str "  "; Str "Y"].
Proof.
  assert (Hrect : Forall (fun r => List.length r = List.length Sample.header)
                    Sample.rows) by (repeat constructor).
  split; [exact Hrect|].
  destruct (blank_approval_not_approved Sample.to_mdY Sample.header Sample.rows
              "Timestamp" "BishopApproval" Hrect eq_refl eq_refl
              sample_timestamps_parse)
    as (df & Hdf & Hcol & _).
  exists df. split; [exact Hdf | exact Hcol].
Defined.

Lemma sync_idempotent_witness :
  sync Sample.to_mdY Sample.w = (Ok tt, Sample.synced) /\
  sync Sample.to_mdY Sample.synced = (Ok tt, Sample.synced_again) /\
  get_values (progress_sheet Sample.synced_again)
  = get_values (progress_sheet Sample.synced).
Proof.
  assert (H1 : sync Sample.to_mdY Sample.w = (Ok tt, Sample.synced))
    by (vm_compute; reflexivity).
  assert (H2 : sync Sample.to_mdY Sample.synced = (Ok tt, Sample.synced_again))
    by (vm_compute; reflexivity).
  split; [exact H1|]. split; [exact H2|].
  exact (proj1 (sync_idempotent Sample.to_mdY Sample.w Sample.synced
                  Sample.synced Sample.synced_again H1 eq_refl eq_refl H2)).
Defined.

Lemma make_callings_data_scheduled_witness :
  make_callings_data Sample.to_mdY Sample.form = Ok Sample.frame /\
  List.length (values Sample.frame) = 4 /\
  In "ScheduledMeetingWith" (columns Sample.frame).
Proof.
  assert (H : make_callings_data Sample.to_mdY Sample.form = Ok Sample.frame)
    by (vm_compute; reflexivity).
  destruct (make_callings_data_scheduled Sample.to_mdY Sample.form Sample.frame H)
    as (Hlen & Hin & _).
  split; [exact H|]. split; [exact Hlen | exact Hin].
Defined.

Lemma empty_sheet_keeps_header_witness :
  empty_sheet Sample.w = (Ok tt, Sample.cleared) /\
  cell_at (progress_sheet Sample.cleared) 0 10
  = cell_at (progress_sheet Sample.w) 0 10 /\
  cell_at (progress_sheet Sample.cleared) 1 0 = "".
Proof.
  assert (H : empty_sheet Sample.w = (Ok tt, Sample.cleared))
    by (vm_compute; reflexivity).
  destruct (empty_sheet_keeps_header Sample.w Sample.cleared H)
    as (h & rows & _ & _ & Hhead & Hdata & _).
  split; [exact H|]. split; [apply Hhead | apply Hdata; repeat constructor].
Defined.

(** * Further properties of the program *)

(** ** The schema mapper *)

Lemma mapM_combine {A B C} (f : B -> result C) (g : A -> B) (l : list A)
  (ds : list C) (x : A) (d : C) :
  mapM f (map g l) = Ok ds -> In (x, d) (combine l ds) -> f (g x) = Ok d.
Proof.
  revert ds. induction l as [|a l IH]; intros ds H Hin; [contradiction|].
  cbn [map mapM] in H. destruct (f (g a)) as [b|] eqn:Ea; [|discriminate].
  cbn [rbind] in H. destruct (mapM f (map g l)) as [bs|]; [|discriminate].
  cbn [rbind] in H. injection H as <-. destruct Hin as [E|Hin].
  - injection E as <- <-. exact Ea.
  - apply (IH bs eq_refl Hin).
Qed.

Lemma lstrip_rstrip_first (s : string) :
  Py.first_char (Py.strip s) = Py.first_char (Py.lstrip s).
Proof.
  unfold Py.strip. induction s as [|a s IH]; [reflexivity|].
  cbn [Py.rstrip Py.lstrip]. destruct (Py.isspace a) eqn:Ea.
  - destruct (Py.rstrip s) as [|b t] eqn:Er.
    + rewrite <- IH. reflexivity.
    + cbn [Py.lstrip]. rewrite Ea. exact IH.
  - destruct (Py.rstrip s) as [|b t]; cbn [Py.lstrip]; rewrite Ea; reflexivity.
Qed.

Lemma lower_char_y (c : ascii) :
  Py.lower_char c = "y"%char <-> c = "y"%char \/ c = "Y"%char.
Proof.
  split.
  - destruct c as [[] [] [] [] [] [] [] []]; vm_compute; intros H;
      try discriminate H; auto.
  - intros [->| ->]; reflexivity.
Qed.

(** The approval flag is ["y"] exactly when the approval text begins, after
    its leading white space, with [y] or [Y]. *)
Lemma approval_flag (s : string) :
  str_strip_lower_0 (Str s) = Str "y" <->
  exists t, Py.lstrip s = String "y" t \/ Py.lstrip s = String "Y" t.
Proof.
  unfold str_strip_lower_0.
  assert (E : Py.first_char (Py.lower (Py.strip s))
              = match Py.first_char (Py.lstrip s) with
                | Some (String c _) => Some (String (Py.lower_char c) "")
                | _ => None
                end).
  { rewrite <- lstrip_rstrip_first. destruct (Py.strip s); reflexivity. }
  rewrite E. destruct (Py.lstrip s) as [|c t]; cbn [Py.first_char].
  - split; [discriminate|]. intros (t & [H|H]); discriminate.
  - split.
    + intros H. injection H as H. apply lower_char_y in H. exists t.
      destruct H as [->| ->]; auto.
    + intros (t' & [H|H]); injection H as -> _; reflexivity.
Qed.

Section MapperProperties.

Variable to_mdY : string -> result cell.

(** What the mapper does to the columns of the sheet, rows as the frame
    constructor pads them. *)
Lemma make_callings_data_columns (header : list string)
  (rows : list (list string)) (df : DataFrame) :
  make_callings_data to_mdY (header :: rows) = Ok df ->
  let cols := rename_labels simplified_name_map header in
  let padded := map (pad_row (List.length header)) rows in
  (forall l, In l cols -> In l (columns df)) /\
  (forall l, l <> "ScheduledMeetingWith" -> l <> "DateRequested" ->
             l <> "cleaned_approval_text" ->
     map (fun r => field (columns df) r l) (values df)
     = map (fun r => field cols r l) padded) /\
  (forall r, In r (values df) ->
     date_cell to_mdY (field (columns df) r "Timestamp")
     = Ok (field (columns df) r "DateRequested")).
Proof.
  intros H cols padded. apply make_callings_data_inv in H.
  destruct H as (header' & df0 & stamps & dates & approval & Eh & H0 & H).
  cbn [tl] in Eh, H0. injection Eh as <-.
  cbv zeta in H. destruct H as (H1 & H2 & H3 & ->).
  apply mk_frame_inv in H0 as (Hc0 & Hwf0 & Hv0).
  set (df1 := rename df0 simplified_name_map) in *.
  assert (Hwf1 : wf df1) by (apply rename_wf, Hwf0).
  assert (Hc1 : columns df1 = cols) by (unfold df1, rename; cbn; rewrite Hc0; reflexivity).
  assert (Hv1 : values df1 = padded) by (unfold df1, rename; cbn; exact Hv0).
  set (df2 := setitem_scalar df1 "ScheduledMeetingWith" (Str "")) in *.
  assert (Hwf2 : wf df2) by (apply setitem_wf, Hwf1).
  set (df3 := setitem df2 "DateRequested" dates) in *.
  assert (Hwf3 : wf df3) by (apply setitem_wf, Hwf2).
  apply getitem_inv in H1 as [_ ->].
  pose proof (mapM_length _ _ _ H2) as Hlen2. rewrite length_map in Hlen2.
  apply getitem_inv in H3 as [_ ->].
  split; [|split].
  - intros l Hl. rewrite <- Hc1 in Hl.
    rewrite setitem_columns. apply labels_with_In.
    unfold df3. rewrite setitem_columns. apply labels_with_In.
    unfold df2, setitem_scalar. rewrite setitem_columns.
    apply labels_with_In, Hl.
  - intros l Hs Hd Hc.
    rewrite setitem_column_other;
      [|exact Hwf3|exact Hc|rewrite !length_map; reflexivity].
    unfold df3. rewrite setitem_column_other; [|exact Hwf2|exact Hd|exact Hlen2].
    unfold df2, setitem_scalar.
    rewrite setitem_column_other; [|exact Hwf1|exact Hs|apply length_map].
    rewrite Hc1, Hv1. reflexivity.
  - intros r Hr. apply setitem_rows in Hr as (r3 & v & Hin3 & ->).
    apply in_combine_l in Hin3.
    pose proof (wf_row df3 r3 Hwf3 Hin3) as Hl3.
    rewrite setitem_columns. unfold field.
    rewrite !set_cell_other by (discriminate || exact Hl3).
    fold (field (columns df3) r3 "Timestamp").
    fold (field (columns df3) r3 "DateRequested").
    unfold df3 in Hin3. apply setitem_rows in Hin3 as (r2 & d & Hin2 & ->).
    pose proof (mapM_combine _ _ _ _ _ _ H2 Hin2) as Hd.
    apply in_combine_l in Hin2.
    pose proof (wf_row df2 r2 Hwf2 Hin2) as Hl2.
    unfold df3. rewrite setitem_columns.
    rewrite (proj1 (set_cell_same "DateRequested" d _ r2 Hl2)).
    unfold field. rewrite set_cell_other by (discriminate || exact Hl2).
    exact Hd.
Qed.

End MapperProperties.

Section MapperTheorems.

Variable to_mdY : string -> result cell.

(** X1. The mapper leaves the columns of the sheet as they are: every
    renamed label of the header is a label of the frame, and under every
    label other than the three it assigns the frame holds, row by row, what
    the sheet holds. *)
Theorem mapper_keeps_sheet_columns (header : list string)
  (rows : list (list string)) (df : DataFrame) :
  make_callings_data to_mdY (header :: rows) = Ok df ->
  let cols := rename_labels simplified_name_map header in
  (forall l, In l cols -> In l (columns df)) /\
  (forall l, l <> "ScheduledMeetingWith" -> l <> "DateRequested" ->
             l <> "cleaned_approval_text" ->
     map (fun r => field (columns df) r l) (values df)
     = map (fun r => field cols (pad_row (List.length header) r) l) rows).
Proof.
  intros H cols.
  destruct (make_callings_data_columns to_mdY header rows df H) as (H1 & H2 & _).
  split; [exact H1|]. intros l Hs Hd Hc. rewrite (H2 l Hs Hd Hc).
  apply map_map.
Qed.

(** X2. In every row of the frame the mapper returns, [DateRequested] is
    the formatted [Timestamp] of that row. *)
Theorem mapper_date_requested (form_data : list (list string)) (df : DataFrame)
  (r : list cell) :
  make_callings_data to_mdY form_data = Ok df -> In r (values df) ->
  date_cell to_mdY (field (columns df) r "Timestamp")
  = Ok (field (columns df) r "DateRequested").
Proof.
  intros H Hr. destruct form_data as [|header rows]; [discriminate|].
  destruct (make_callings_data_columns to_mdY header rows df H) as (_ & _ & H3).
  apply H3, Hr.
Qed.

(** X3. In every row of the frame the mapper returns, the approval flag is
    ["y"] exactly when the approval text begins, after its leading white
    space, with [y] or [Y]; a missing approval has a missing flag. *)
Theorem mapper_approval_flag (form_data : list (list string)) (df : DataFrame)
  (r : list cell) :
  make_callings_data to_mdY form_data = Ok df -> In r (values df) ->
  (forall s, field (columns df) r "BishopApproval" = Str s ->
     (field (columns df) r "cleaned_approval_text" = Str "y" <->
      exists t, Py.lstrip s = String "y" t \/ Py.lstrip s = String "Y" t)) /\
  (field (columns df) r "BishopApproval" = NaN ->
   field (columns df) r "cleaned_approval_text" = NaN).
Proof.
  intros H Hr.
  apply make_callings_data_facts in H as (_ & _ & _ & _ & Hclean).
  rewrite (Hclean r Hr). split.
  - intros s ->. apply approval_flag.
  - intros ->. reflexivity.
Qed.

(** X4. The mapper returns only on a sheet that has a [Timestamp] and a
    [BishopApproval] column once renamed; on a rectangular sheet without a
    [Timestamp] column it raises [KeyError]. *)
Theorem mapper_needs_columns (header : list string) (rows : list (list string)) :
  let cols := rename_labels simplified_name_map header in
  (forall df, make_callings_data to_mdY (header :: rows) = Ok df ->
     In "Timestamp" cols /\ In "BishopApproval" cols) /\
  (Forall (fun r => List.length r = List.length header) rows ->
   ~ In "Timestamp" cols ->
   make_callings_data to_mdY (header :: rows) = Raise (KeyError "Timestamp")).
Proof.
  intros cols. split.
  - intros df H. apply make_callings_data_inv in H.
    destruct H as (header' & df0 & stamps & dates & approval & Eh & H0 & H).
    cbn [tl] in Eh, H0. injection Eh as <-.
    cbv zeta in H. destruct H as (H1 & _ & H3 & _).
    apply mk_frame_inv in H0 as (Hc0 & _ & _).
    apply getitem_inv in H1 as [[c1 H1] _]. apply getitem_inv in H3 as [[c3 H3] _].
    rewrite setitem_columns, labels_with_count in H3 by discriminate.
    unfold setitem_scalar in H1, H3.
    rewrite setitem_columns, labels_with_count in H1, H3 by discriminate.
    unfold rename in H1, H3. cbn [columns] in H1, H3. rewrite Hc0 in H1, H3.
    fold cols in H1, H3.
    split; apply filter_eqb_In; [rewrite H1 | rewrite H3]; discriminate.
  - intros Hrect Hno. unfold make_callings_data. cbn [rbind tl].
    rewrite (mk_frame_rect rows header Hrect). cbn [rbind].
    unfold getitem at 1. unfold setitem_scalar.
    rewrite setitem_columns, labels_with_count by discriminate.
    unfold rename. cbn [columns]. fold cols.
    rewrite (filter_eqb_nil _ _ Hno). reflexivity.
Qed.

(** X5. The mapper returns only when the timestamp of every data row
    parses: no row is skipped. *)
Theorem mapper_parses_every_timestamp (header : list string)
  (rows : list (list string)) (df : DataFrame) (r : list string) :
  make_callings_data to_mdY (header :: rows) = Ok df -> In r rows ->
  exists d,
    date_cell to_mdY
      (field (rename_labels simplified_name_map header)
             (pad_row (List.length header) r) "Timestamp")
    = Ok d.
Proof.
  intros H Hr.
  destruct (make_callings_data_columns to_mdY header rows df H) as (_ & H2 & H3).
  specialize (H2 "Timestamp" ltac:(discriminate) ltac:(discriminate)
                 ltac:(discriminate)).
  set (cols := rename_labels simplified_name_map header) in *.
  assert (Hin : In (field cols (pad_row (List.length header) r) "Timestamp")
                   (map (fun r => field (columns df) r "Timestamp") (values df))).
  { rewrite H2. apply in_map_iff. exists (pad_row (List.length header) r).
    split; [reflexivity|]. apply in_map, Hr. }
  apply in_map_iff in Hin as (r' & E & Hr'). rewrite <- E.
  eexists. apply H3, Hr'.
Qed.

End MapperTheorems.

(** ** The row filter *)

(** X6. The filter returns only on a frame that carries every label it
    looks up: it never fills in a missing column. *)
Theorem filter_needs_columns (df out : DataFrame) :
  get_filtered_data df = Ok out -> incl needed (columns df).
Proof.
  intros H. apply get_filtered_data_inv in H as ([c1 Ha] & [c2 Hr] & Hk & _).
  intros k [<-|[<-|Hkk]].
  - apply filter_eqb_In. rewrite Ha. discriminate.
  - apply filter_eqb_In. rewrite Hr. discriminate.
  - apply Hk, Hkk.
Qed.

(** X7. What the filter returns is a well-formed frame with no more rows
    than it was given, whose labels are all among the ten fixed ones; so it
    carries neither the approval flag nor [Recorded], and the filter raises
    [KeyError] when it is applied to its own result. *)
Theorem filter_output_shape (df out : DataFrame) :
  wf df -> get_filtered_data df = Ok out ->
  wf out /\ incl (columns out) keeps /\
  List.length (values out) <= List.length (values df) /\
  get_filtered_data out = Raise (KeyError "cleaned_approval_text").
Proof.
  intros Hwf H. apply get_filtered_data_inv in H as (_ & _ & _ & ->).
  assert (Hincl : incl (flat_map (fun k => filter (String.eqb k) (columns df)) keeps)
                       keeps).
  { intros c Hc. apply in_flat_map in Hc as (k & Hk & Hc).
    apply filter_In in Hc as [_ Hc]. apply String.eqb_eq in Hc. congruence. }
  split; [|split; [exact Hincl|split]].
  - unfold wf. cbn [columns values]. apply Forall_forall. intros r Hr.
    apply in_map_iff in Hr as (r0 & <- & Hr0). apply filter_In in Hr0 as [Hr0 _].
    apply picked_length, (wf_row df r0 Hwf Hr0).
  - cbn [values]. rewrite length_map. apply filter_length_le.
  - unfold get_filtered_data, getitem. cbn [columns].
    rewrite filter_eqb_nil; [reflexivity|].
    intros Hin. apply Hincl in Hin. unfold keeps in Hin. simpl in Hin.
    intuition discriminate.
Qed.

(** ** The clear step and the destination *)

Lemma get_values_blank (g : grid) : nrows g = 0 -> get_values g = [].
Proof. intros H. unfold get_values. rewrite H. reflexivity. Qed.

Lemma empty_sheet_raise (w w1 : world) (e : exn) :
  empty_sheet w = (Raise e, w1) -> w1 = w.
Proof.
  unfold empty_sheet, progress_get_values, progress_update, bind, external, lift.
  destruct (fails w ProgressGetValues); cbv beta iota; [congruence|].
  destruct (eraser (get_values (progress_sheet w))) as [er|]; cbv beta iota;
    [|congruence].
  destruct (json_values (frame_table er)); cbv beta iota; [|congruence].
  destruct (fails w EraserUpdate); cbv beta iota; [congruence|discriminate].
Qed.

Lemma json_values_raise (rows : list (list cell)) (e : exn) :
  json_values rows = Raise e -> e = InvalidJSONError.
Proof.
  unfold json_values.
  assert (Hrow : forall r, mapM json_cell r = Raise e -> e = InvalidJSONError).
  { induction r as [|c r IH]; [discriminate|]. cbn [mapM].
    destruct c as [s|]; cbn [json_cell rbind]; [|congruence].
    destruct (mapM json_cell r); cbn [rbind]; [discriminate|]. intros H.
    apply IH. congruence. }
  induction rows as [|r rows IH]; [discriminate|]. cbn [mapM].
  destruct (mapM json_cell r) as [r'|] eqn:Er; cbn [rbind].
  - destruct (mapM (mapM json_cell) rows); cbn [rbind]; [discriminate|].
    intros H. apply IH. congruence.
  - intros H. apply (Hrow r). congruence.
Qed.

Lemma empty_sheet_no_header (w : world) :
  nrows (progress_sheet w) = 0 -> exists e, empty_sheet w = (Raise e, w).
Proof.
  intros H.
  unfold empty_sheet, progress_get_values, progress_update, bind, external, lift.
  destruct (fails w ProgressGetValues); [eexists; reflexivity|].
  rewrite (get_values_blank _ H). eexists. reflexivity.
Qed.

(** X8. On a blank sheet the clear step raises and writes nothing: the
    header row it indexes is not there. *)
Theorem empty_sheet_blank (w : world) :
  nrows (progress_sheet w) = 0 ->
  empty_sheet w
  = (Raise (if fails w ProgressGetValues
            then ExternalError ProgressGetValues else IndexError), w).
Proof.
  intros H.
  unfold empty_sheet, progress_get_values, progress_update, bind, external, lift.
  destruct (fails w ProgressGetValues); [reflexivity|].
  rewrite (get_values_blank _ H). reflexivity.
Qed.

(** X9. After the clear step the sheet reads back as its header row at
    most, and clearing it once more leaves it as it reads. *)
Theorem empty_sheet_once (w w1 : world) :
  empty_sheet w = (Ok tt, w1) ->
  List.length (get_values (progress_sheet w1)) <= 1 /\
  forall w2, empty_sheet w1 = (Ok tt, w2) ->
    get_values (progress_sheet w2) = get_values (progress_sheet w1).
Proof.
  intros H. apply empty_sheet_inv in H as (h & rows & E & ->).
  cbn [progress_sheet set_progress].
  set (g1 := overlay (blanked h rows) (progress_sheet w)).
  assert (Hc : forall i j, cell_at g1 (S i) j = "")
    by (intros i j; unfold g1; rewrite (cleared_cells _ h rows (S i) j E);
        reflexivity).
  split.
  - rewrite get_values_length. destruct (nrows g1) as [|[|n]] eqn:En; [lia|lia|].
    apply nrows_last in En as [j Hj]. exfalso. apply Hj, Hc.
  - intros w2 H2. apply empty_sheet_inv in H2 as (h' & rows' & E' & ->).
    cbn [progress_sheet set_progress] in *. fold g1 in E' |- *.
    apply get_values_ext. intros i j.
    rewrite (cleared_cells g1 h' rows' i j E').
    destruct i as [|i]; [reflexivity|]. rewrite Hc. reflexivity.
Qed.

Section DestinationTheorems.

Variable to_mdY : string -> result cell.

(** X10. A run of the [try] block that raises anywhere but inside one of
    its two update calls leaves the progress sheet as it was, or, when the
    filtered table has a missing cell and cannot be encoded for the last
    write, cleared to its first row. *)
Theorem sync_raise_destination (w w' : world) (e : exn) :
  sync to_mdY w = (Raise e, w') ->
  e <> ExternalError EraserUpdate -> e <> ExternalError ProgressUpdate ->
  progress_sheet w' = progress_sheet w \/
  (e = InvalidJSONError /\
   forall i j,
     cell_at (progress_sheet w') i j
     = if (i =? 0)%nat then cell_at (progress_sheet w) 0 j else "").
Proof.
  intros H Hne1 Hne2. revert H.
  unfold sync, form_get_values, bind, external, lift.
  destruct (fails w GetCreds); cbv beta iota; [intros H; left; congruence|].
  destruct (fails w Authorize); cbv beta iota; [intros H; left; congruence|].
  destruct (fails w OpenForm); cbv beta iota; [intros H; left; congruence|].
  destruct (fails w FormGetValues); cbv beta iota; [intros H; left; congruence|].
  destruct (make_callings_data to_mdY (get_values (form_sheet w)))
    as [calling_df|]; cbv beta iota; [|intros H; left; congruence].
  destruct (get_filtered_data calling_df) as [updated_df|]; cbv beta iota;
    [|intros H; left; congruence].
  destruct (fails w OpenProgress); cbv beta iota; [intros H; left; congruence|].
  destruct (empty_sheet w) as [[[]|e1] w1] eqn:Hes; cbv beta iota.
  - apply empty_sheet_inv in Hes as (h & rows & E & ->).
    unfold progress_update, bind, external, lift.
    destruct (json_values (frame_table updated_df)) as [t|e0] eqn:Hj;
      cbv beta iota.
    + cbn [fails set_progress].
      destruct (fails w ProgressUpdate); cbv beta iota;
        [|unfold logger; intros; discriminate].
      intros H. exfalso. apply Hne2. congruence.
    + apply json_values_raise in Hj. subst e0.
      intros H. injection H as <- <-. right. split; [reflexivity|].
      intros i j. apply (cleared_cells _ h rows i j E).
  - apply empty_sheet_raise in Hes. subst w1. intros H. left. congruence.
Qed.

(** X11. With a blank form sheet or a blank progress sheet the [try] block
    raises and changes nothing: a destination without a header row is never
    filled. *)
Theorem sync_blank_sheet (w : world) :
  nrows (form_sheet w) = 0 \/ nrows (progress_sheet w) = 0 ->
  exists e, sync to_mdY w = (Raise e, w).
Proof.
  intros Hblank.
  unfold sync, form_get_values, bind, external, lift.
  destruct (fails w GetCreds); cbv beta iota; [eexists; reflexivity|].
  destruct (fails w Authorize); cbv beta iota; [eexists; reflexivity|].
  destruct (fails w OpenForm); cbv beta iota; [eexists; reflexivity|].
  destruct (fails w FormGetValues); cbv beta iota; [eexists; reflexivity|].
  destruct (make_callings_data to_mdY (get_values (form_sheet w)))
    as [calling_df|] eqn:Hm; cbv beta iota; [|eexists; reflexivity].
  destruct Hblank as [Hf|Hp].
  { rewrite (get_values_blank _ Hf) in Hm. discriminate. }
  destruct (get_filtered_data calling_df) as [updated_df|]; cbv beta iota;
    [|eexists; reflexivity].
  destruct (fails w OpenProgress); cbv beta iota; [eexists; reflexivity|].
  destruct (empty_sheet_no_header w Hp) as [e He]. rewrite He.
  eexists. reflexivity.
Qed.

End DestinationTheorems.

(** ** The log rotator and the changelog mirror *)

(** The lines [trim_logs] keeps. *)
Lemma kept_lines (lines : list string) :
  lines_ok lines = true ->
  let kept := if (21 <=? List.length lines)%nat
              then Py.last_k 20 lines else lines in
  Py.readlines (Py.writelines kept) = kept /\
  List.length kept <= 20 /\
  Py.get_last kept = Py.get_last lines.
Proof.
  intros Hok kept. unfold kept.
  destruct (21 <=? List.length lines)%nat eqn:E.
  - apply Nat.leb_le in E. unfold Py.last_k. split; [|split].
    + apply readlines_writelines, lines_ok_skipn, Hok.
    + rewrite length_skipn. lia.
    + apply get_last_skipn. lia.
  - apply Nat.leb_gt in E. split; [|split].
    + apply readlines_writelines, Hok.
    + lia.
    + reflexivity.
Qed.

(** X12. [trim_logs] leaves at most 20 lines, the last of which is the last
    line the log had, and running it again changes nothing; without a
    [log.txt] it raises [FileNotFoundError] and creates no file. *)
Theorem trim_logs_bound (w : world) :
  (forall content, log_txt w = Some content ->
     exists content',
       trim_logs w = (Ok tt, set_log content' w) /\
       List.length (Py.readlines content') <= 20 /\
       Py.get_last (Py.readlines content') = Py.get_last (Py.readlines content) /\
       trim_logs (set_log content' w) = (Ok tt, set_log content' w)) /\
  (log_txt w = None ->
     trim_logs w = (Raise (FileNotFoundError "log.txt"), w)).
Proof.
  split.
  - intros content H. rewrite (trim_logs_run w content H).
    destruct (kept_lines (Py.readlines content) (readlines_ok content))
      as (Hk & Hlen & Hlast).
    set (kept := if (21 <=? List.length (Py.readlines content))%nat
                 then Py.last_k 20 (Py.readlines content)
                 else Py.readlines content) in *.
    exists (Py.writelines kept). rewrite Hk.
    split; [reflexivity|]. split; [exact Hlen|]. split; [exact Hlast|].
    rewrite (trim_logs_run (set_log (Py.writelines kept) w)
               (Py.writelines kept) eq_refl), Hk.
    destruct (21 <=? List.length kept)%nat eqn:E; [|reflexivity].
    apply Nat.leb_le in E. lia.
  - intros H. unfold trim_logs, bind, read_lines. rewrite H. reflexivity.
Qed.

Lemma add_log_to_readme_failed (w w' : world) (e : exn) :
  add_log_to_readme w = (Raise e, w') -> w' = w.
Proof.
  unfold add_log_to_readme, bind, read_lines, lift, write_readme.
  destruct (readme_md w); [|congruence].
  destruct (log_txt w) as [log|]; [|congruence].
  destruct (Py.get_last (Py.readlines log)) as [line|]; [|congruence].
  destruct (format_entry line); [|congruence].
  destruct (Py.set_last _ _); [discriminate|congruence].
Qed.

Lemma format_entry_raise (line : string) (e : exn) :
  format_entry line = Raise e -> e = IndexError.
Proof.
  unfold format_entry.
  destruct (map Py.strip (Py.split "  " line)) as [|a [|b rest]];
    cbn [Py.del1 rbind]; congruence.
Qed.

(** X13. [add_log_to_readme] either replaces the last line of the status
    document or raises and leaves every file as it was; it raises
    [FileNotFoundError] for an absent file and [IndexError] for an empty
    log, a last log line without a two-space separator, or an empty
    document. *)
Theorem add_log_to_readme_raise (w w' : world) (e : exn) :
  add_log_to_readme w = (Raise e, w') ->
  w' = w /\
  (e = FileNotFoundError "README.md" /\ readme_md w = None \/
   e = FileNotFoundError "log.txt" /\ log_txt w = None \/
   e = IndexError /\
   exists readme log, readme_md w = Some readme /\ log_txt w = Some log /\
     (Py.readlines log = [] \/
      (exists line, Py.get_last (Py.readlines log) = Ok line /\
                    List.length (Py.split "  " line) <= 1) \/
      readme = "")).
Proof.
  unfold add_log_to_readme, bind, read_lines, lift, write_readme.
  destruct (readme_md w) as [readme|] eqn:Hr;
    [|intros H; injection H as <- <-; auto].
  destruct (log_txt w) as [log|] eqn:Hl;
    [|intros H; injection H as <- <-; auto].
  destruct (Py.get_last (Py.readlines log)) as [line|e1] eqn:Hlast.
  - destruct (format_entry line) as [u|e2] eqn:Hu.
    + destruct (Py.readlines readme) as [|x rl] eqn:E; cbn [Py.set_last];
        [|discriminate].
      intros H. injection H as <- <-. split; [reflexivity|].
      right. right. split; [reflexivity|]. exists readme, log.
      repeat split. right. right.
      rewrite <- (writelines_readlines readme), E. reflexivity.
    + pose proof (format_entry_raise _ _ Hu) as ->.
      intros H. injection H as <- <-. split; [reflexivity|].
      right. right. split; [reflexivity|]. exists readme, log.
      repeat split. right. left. exists line. split; [exact Hlast|].
      unfold format_entry in Hu. rewrite <- (length_map Py.strip).
      destruct (map Py.strip (Py.split "  " line)) as [|a [|b rest]];
        cbn [Py.del1 rbind] in Hu; [simpl; lia | simpl; lia | discriminate].
  - intros H. injection H as <- <-. split; [reflexivity|].
    unfold Py.get_last in Hlast.
    destruct (rev (Py.readlines log)) as [|x t] eqn:Erev; [|discriminate].
    injection Hlast as <-.
    right. right. split; [reflexivity|]. exists readme, log.
    repeat split. left.
    apply (f_equal (@rev string)) in Erev. rewrite rev_involutive in Erev.
    exact Erev.
Qed.

(** X14. Mirroring the same log twice gives the same status document as
    mirroring it once. *)
Theorem add_log_to_readme_twice (w w1 : world) :
  add_log_to_readme w = (Ok tt, w1) -> add_log_to_readme w1 = (Ok tt, w1).
Proof.
  intros H. apply add_log_to_readme_inv in H.
  destruct H as (readme & log & line & u & Hr & Hl & Hlast & Hu & Hne & ->).
  pose proof (mirror_lines readme log line u Hlast Hu) as Hm.
  set (x := Py.writelines (removelast (Py.readlines readme) ++ [u])) in *.
  assert (Hx : x <> "").
  { intros E. rewrite E in Hm. simpl in Hm.
    destruct (removelast (Py.readlines readme)); discriminate. }
  rewrite (add_log_to_readme_run (set_readme x w) x log line u eq_refl Hl
             Hlast Hu Hx).
  rewrite Hm, removelast_last. reflexivity.
Qed.

(** ** [main] as a whole *)

Lemma housekeeping_world (w : world) :
  form_sheet (snd (housekeeping w)) = form_sheet w /\
  progress_sheet (snd (housekeeping w)) = progress_sheet w /\
  (forall content, log_txt w = Some content ->
     exists content',
       log_txt (snd (housekeeping w)) = Some content' /\
       List.length (Py.readlines content') <= 20).
Proof.
  unfold housekeeping, bind.
  destruct (log_txt w) as [content|] eqn:Hl.
  - rewrite (trim_logs_run w content Hl).
    destruct (kept_lines (Py.readlines content) (readlines_ok content))
      as (Hk & Hlen & _).
    set (kept := if (21 <=? List.length (Py.readlines content))%nat
                 then Py.last_k 20 (Py.readlines content)
                 else Py.readlines content) in *.
    destruct (add_log_to_readme (set_log (Py.writelines kept) w))
      as [[[]|e] w2] eqn:Ha.
    + apply add_log_to_readme_inv in Ha
        as (readme & log & line & u & _ & _ & _ & _ & _ & ->).
      cbn. repeat split. intros c Hc. exists (Py.writelines kept).
      rewrite Hk. split; [reflexivity|exact Hlen].
    + apply add_log_to_readme_failed in Ha as ->.
      cbn. repeat split. intros c Hc. exists (Py.writelines kept).
      rewrite Hk. split; [reflexivity|exact Hlen].
  - unfold trim_logs, bind, read_lines. rewrite Hl. cbn. repeat split.
    discriminate.
Qed.

Section WholeRun.

Variable to_mdY : string -> result cell.

Lemma sync_form_sheet (w : world) :
  form_sheet (snd (sync to_mdY w)) = form_sheet w.
Proof.
  unfold sync, form_get_values, bind, external, lift.
  destruct (fails w GetCreds); cbv beta iota; [reflexivity|].
  destruct (fails w Authorize); cbv beta iota; [reflexivity|].
  destruct (fails w OpenForm); cbv beta iota; [reflexivity|].
  destruct (fails w FormGetValues); cbv beta iota; [reflexivity|].
  destruct (make_callings_data to_mdY (get_values (form_sheet w)))
    as [calling_df|]; cbv beta iota; [|reflexivity].
  destruct (get_filtered_data calling_df) as [updated_df|]; cbv beta iota;
    [|reflexivity].
  destruct (fails w OpenProgress); cbv beta iota; [reflexivity|].
  destruct (empty_sheet w) as [[[]|e1] w1] eqn:Hes; cbv beta iota.
  - apply empty_sheet_inv in Hes as (h & rows & E & ->).
    unfold progress_update, bind, external, lift.
    destruct (json_values (frame_table updated_df)) as [t|]; cbv beta iota;
      [|reflexivity].
    cbn [fails set_progress].
    destruct (fails w ProgressUpdate); reflexivity.
  - apply empty_sheet_raise in Hes. subst w1. reflexivity.
Qed.

(** X15. Whatever happens in a run, [main] leaves the form sheet as it was
    and a log of at most 20 lines. *)
Theorem main_bounds (w : world) :
  form_sheet (snd (main to_mdY w)) = form_sheet w /\
  exists content,
    log_txt (snd (main to_mdY w)) = Some content /\
    List.length (Py.readlines content) <= 20.
Proof.
  rewrite main_split.
  destruct (guarded_sync_run to_mdY w)
    as (w2 & level & message & Hg & _ & Hl & Hcase).
  rewrite Hg.
  destruct (housekeeping_world w2) as (Hf & _ & Hlog).
  split.
  - rewrite Hf.
    destruct Hcase as [[_ (w1 & Hs & ->)]|[_ (e & w1 & Hs & ->)]].
    + pose proof (sync_form_sheet (snd (basicConfig w))) as H.
      rewrite Hs in H. exact H.
    + pose proof (sync_form_sheet (snd (basicConfig w))) as H.
      rewrite Hs in H. exact H.
  - destruct (Hlog _ Hl) as (content' & H1 & H2). exists content'. auto.
Qed.

End WholeRun.

Lemma terminated_snoc (body : string) :
  has_nl body = false -> terminated (body ++ String Py.nl "") = true.
Proof.
  induction body as [|c body IH]; [reflexivity|].
  simpl. intros H. apply orb_false_iff in H as [Hc Hb]. rewrite Hc. auto.
Qed.

Lemma readlines_after_lines (ls : list string) (s : string) :
  Forall (fun l => terminated l = true) ls ->
  Py.readlines (Py.writelines ls ++ s) = ls ++ Py.readlines s.
Proof.
  induction 1 as [|l ls Hl _ IH]; [reflexivity|].
  rewrite writelines_cons, string_app_assoc, (readlines_terminated _ _ Hl), IH.
  reflexivity.
Qed.

(** A text without a two-space separator is the first field of what
    follows it. *)
Lemma split_single_spaced (t r : string) :
  single_spaced t = true ->
  Py.split "  " (t ++ "  " ++ r) = t :: Py.split "  " r.
Proof.
  unfold Py.split. induction t as [|c t IH]; intros H.
  - change ("" ++ "  " ++ r)%string with (String " " (String " " r)).
    cbn [Py.split_go].
    change (String " " (String " " r)) with ("  " ++ r)%string at 1.
    rewrite prefix_app. reflexivity.
  - cbn [single_spaced] in H. apply andb_true_iff in H as [Hc Ht].
    change (String c t ++ "  " ++ r)%string with (String c (t ++ "  " ++ r)).
    cbn [Py.split_go].
    assert (Hp : prefix "  " (String c (t ++ "  " ++ r)) = false).
    { cbn [prefix]. destruct (ascii_dec " " c) as [<-|Hne]; [|reflexivity].
      cbn in Hc. destruct t as [|d t]; [discriminate|].
      cbn [String.append prefix].
      destruct (ascii_dec " " d) as [<-|]; [discriminate|reflexivity]. }
    rewrite Hp, (IH Ht). reflexivity.
Qed.

Lemma format_record (time level message : string) (fields : list string) :
  single_spaced time = true ->
  Py.split "  " (Py.ljust 6 level ++ " " ++ message ++ String Py.nl "")
  = level :: fields ->
  format_entry (log_record time level message)
  = Ok ("- " ++ Py.join " UTC: " (Py.strip time :: map Py.strip fields))%string.
Proof.
  intros Ht Hs. unfold format_entry, log_record.
  rewrite (split_single_spaced _ _ Ht), Hs. reflexivity.
Qed.

Section StatusLine.

Variable to_mdY : string -> result cell.

(** X16. When every line of the log ends with a line feed, the time stamp
    of the logger holds neither a line feed nor a two-space separator, and
    the status document is not empty, [main] returns and the last line of
    the status document is the time stamp followed by [" UTC: "] and the
    outcome of the run: ["Job successfully completed"] when the [try] block
    returned, ["Job failed"] when it raised. *)
Theorem main_status_line (w : world) (readme : string) :
  readme_md w = Some readme -> readme <> "" ->
  Forall (fun l => terminated l = true)
    (Py.readlines (match log_txt w with Some s => s | None => "" end)) ->
  has_nl (asctime w) = false -> single_spaced (asctime w) = true ->
  exists readme',
    fst (main to_mdY w) = Ok tt /\
    readme_md (snd (main to_mdY w)) = Some readme' /\
    Py.get_last (Py.readlines readme')
    = Ok ("- " ++ Py.strip (asctime w) ++ " UTC: "
          ++ match fst (sync to_mdY (snd (basicConfig w))) with
             | Ok _ => "Job successfully completed"
             | Raise _ => "Job failed"
             end)%string.
Proof.
  intros Hr Hne Hlines Hnl Hsp. rewrite main_split.
  destruct (guarded_sync_run to_mdY w)
    as (w2 & level & message & Hg & Hr2 & Hl & Hcase).
  rewrite Hg.
  set (pre := match log_txt w with Some s => s | None => "" end) in *.
  set (rec := log_record (asctime w) level message) in *.
  assert (Hlm : (level = "INFO" /\ message = "Job successfully completed" /\
                 fst (sync to_mdY (snd (basicConfig w))) = Ok tt)
                \/ (level = "ERROR" /\ message = "Job failed" /\
                    exists e, fst (sync to_mdY (snd (basicConfig w))) = Raise e)).
  { destruct Hcase as [[E (w1 & Hs & _)]|[E (e & w1 & Hs & _)]];
      injection E as -> ->; rewrite Hs; [left|right];
      (split; [reflexivity|]); (split; [reflexivity|]);
      [reflexivity | exists e; reflexivity]. }
  assert (Hbody : has_nl (asctime w ++ "  " ++ Py.ljust 6 level ++ " " ++ message)
                  = false).
  { rewrite has_nl_app, Hnl.
    destruct Hlm as [(-> & -> & _)|(-> & -> & _)]; reflexivity. }
  assert (Hrec : terminated rec = true).
  { unfold rec, log_record.
    replace (asctime w ++ "  " ++ Py.ljust 6 level ++ " " ++ message
             ++ String Py.nl "")%string
      with ((asctime w ++ "  " ++ Py.ljust 6 level ++ " " ++ message)
            ++ String Py.nl "")%string
      by (rewrite !string_app_assoc; reflexivity).
    apply terminated_snoc, Hbody. }
  assert (Hall : Py.readlines (pre ++ rec) = Py.readlines pre ++ [rec]).
  { rewrite <- (writelines_readlines pre) at 1.
    rewrite (readlines_after_lines _ _ Hlines).
    rewrite <- (string_app_nil_r rec) at 1.
    rewrite (readlines_terminated _ _ Hrec). reflexivity. }
  unfold housekeeping, bind. rewrite (trim_logs_run w2 _ Hl).
  set (lines := Py.readlines (pre ++ rec)) in *.
  set (kept := if (21 <=? List.length lines)%nat then Py.last_k 20 lines else lines).
  assert (Hk : Py.readlines (Py.writelines kept) = kept).
  { apply readlines_writelines. unfold kept.
    destruct (21 <=? List.length lines)%nat;
      [apply lines_ok_skipn|]; apply readlines_ok. }
  assert (Hlast : Py.get_last kept = Ok rec).
  { assert (Hl0 : Py.get_last lines = Ok rec)
      by (rewrite Hall; apply get_last_snoc).
    unfold kept. destruct (21 <=? List.length lines)%nat eqn:E; [|exact Hl0].
    apply Nat.leb_le in E. unfold Py.last_k.
    rewrite get_last_skipn by lia. exact Hl0. }
  set (u := ("- " ++ Py.strip (asctime w) ++ " UTC: " ++ message)%string).
  assert (Hu : format_entry rec = Ok u).
  { unfold rec, u.
    destruct Hlm as [(-> & -> & _)|(-> & -> & _)].
    - apply (format_record _ "INFO" _ [" Job successfully completed"
                                        ++ String Py.nl ""]%string Hsp).
      reflexivity.
    - apply (format_record _ "ERROR" _ ["Job failed" ++ String Py.nl ""]%string
               Hsp).
      reflexivity. }
  set (w3 := set_log (Py.writelines kept) w2).
  assert (Hlast3 : Py.get_last (Py.readlines (Py.writelines kept)) = Ok rec)
    by (rewrite Hk; exact Hlast).
  rewrite (add_log_to_readme_run w3 readme (Py.writelines kept) rec u);
    [|unfold w3; cbn [readme_md set_log]; congruence
     |reflexivity|exact Hlast3|exact Hu|exact Hne].
  exists (Py.writelines (removelast (Py.readlines readme) ++ [u])).
  split; [reflexivity|]. split; [reflexivity|].
  rewrite (mirror_lines readme (Py.writelines kept) rec u Hlast3 Hu).
  rewrite get_last_snoc. unfold u. f_equal.
  destruct Hlm as [(_ & -> & ->)|(_ & -> & [e ->])]; reflexivity.
Qed.

End StatusLine.

(** ** The further properties on the sample data *)

Lemma sample_mapper_run :
  make_callings_data Sample.to_mdY (Sample.header :: Sample.rows)
  = Ok Sample.frame.
Proof. vm_compute. reflexivity. Qed.

Lemma sample_first_row : In MoreSamples.first_row (values Sample.frame).
Proof. left. reflexivity. Qed.

Lemma sample_filter_run :
  get_filtered_data Sample.frame
  = Ok {| columns := hd [] Sample.table;
          values := map (map Str) (tl Sample.table) |}.
Proof. vm_compute. reflexivity. Qed.

Lemma mapper_keeps_sheet_columns_witness :
  make_callings_data Sample.to_mdY (Sample.header :: Sample.rows)
  = Ok Sample.frame /\
  map (fun r => field (columns Sample.frame) r "PersonToCall")
      (values Sample.frame)
  = map (fun r => field (rename_labels simplified_name_map Sample.header)
                        (pad_row (List.length Sample.header) r) "PersonToCall")
        Sample.rows.
Proof.
  split; [exact sample_mapper_run|].
  apply (proj2 (mapper_keeps_sheet_columns Sample.to_mdY Sample.header
                  Sample.rows Sample.frame sample_mapper_run));
    discriminate.
Defined.

Lemma mapper_date_requested_witness :
  In MoreSamples.first_row (values Sample.frame) /\
  date_cell Sample.to_mdY
    (field (columns Sample.frame) MoreSamples.first_row "Timestamp")
  = Ok (field (columns Sample.frame) MoreSamples.first_row "DateRequested").
Proof.
  split; [exact sample_first_row|].
  exact (mapper_date_requested Sample.to_mdY _ Sample.frame
           MoreSamples.first_row sample_mapper_run sample_first_row).
Defined.

Lemma mapper_approval_flag_witness :
  field (columns Sample.frame) MoreSamples.first_row "BishopApproval"
  = Str " Yes" /\
  field (columns Sample.frame) MoreSamples.first_row "cleaned_approval_text"
  = Str "y".
Proof.
  split; [reflexivity|].
  apply (proj1 (mapper_approval_flag Sample.to_mdY _ Sample.frame
                  MoreSamples.first_row sample_mapper_run sample_first_row)
           " Yes" eq_refl).
  exists "es". right. reflexivity.
Defined.

Lemma mapper_needs_columns_witness :
  In "Timestamp" (rename_labels simplified_name_map Sample.header) /\
  In "BishopApproval" (rename_labels simplified_name_map Sample.header).
Proof.
  exact (proj1 (mapper_needs_columns Sample.to_mdY Sample.header Sample.rows)
           Sample.frame sample_mapper_run).
Defined.

Lemma mapper_parses_every_timestamp_witness :
  In (hd [] Sample.rows) Sample.rows /\
  exists d,
    date_cell Sample.to_mdY
      (field (rename_labels simplified_name_map Sample.header)
             (pad_row (List.length Sample.header) (hd [] Sample.rows))
             "Timestamp")
    = Ok d.
Proof.
  assert (Hin : In (hd [] Sample.rows) Sample.rows) by (left; reflexivity).
  split; [exact Hin|].
  exact (mapper_parses_every_timestamp Sample.to_mdY Sample.header Sample.rows
           Sample.frame _ sample_mapper_run Hin).
Defined.

Lemma filter_needs_columns_witness : incl needed (columns Sample.frame).
Proof. exact (filter_needs_columns Sample.frame _ sample_filter_run). Defined.

Lemma filter_output_shape_witness :
  wf Sample.frame /\
  get_filtered_data {| columns := hd [] Sample.table;
                       values := map (map Str) (tl Sample.table) |}
  = Raise (KeyError "cleaned_approval_text").
Proof.
  split; [exact sample_frame_wf|].
  exact (proj2 (proj2 (proj2 (filter_output_shape Sample.frame _
                                sample_frame_wf sample_filter_run)))).
Defined.

Lemma empty_sheet_blank_witness :
  nrows (progress_sheet MoreSamples.w_blank) = 0 /\
  empty_sheet MoreSamples.w_blank = (Raise IndexError, MoreSamples.w_blank).
Proof.
  split; [reflexivity|].
  exact (empty_sheet_blank MoreSamples.w_blank eq_refl).
Defined.

Lemma sample_cleared : empty_sheet Sample.w = (Ok tt, Sample.cleared).
Proof. vm_compute. reflexivity. Qed.

Lemma empty_sheet_once_witness :
  empty_sheet Sample.w = (Ok tt, Sample.cleared) /\
  List.length (get_values (progress_sheet Sample.cleared)) <= 1.
Proof.
  split; [exact sample_cleared|].
  exact (proj1 (empty_sheet_once Sample.w Sample.cleared sample_cleared)).
Defined.

Lemma sample_missing_date :
  sync Sample.to_mdY MoreSamples.w_missing_date
  = (Raise InvalidJSONError,
     snd (sync Sample.to_mdY MoreSamples.w_missing_date)).
Proof. vm_compute. reflexivity. Qed.

Lemma sync_raise_destination_witness :
  sync Sample.to_mdY MoreSamples.w_missing_date
  = (Raise InvalidJSONError,
     snd (sync Sample.to_mdY MoreSamples.w_missing_date)) /\
  (progress_sheet (snd (sync Sample.to_mdY MoreSamples.w_missing_date))
   = progress_sheet MoreSamples.w_missing_date \/
   cell_at (progress_sheet (snd (sync Sample.to_mdY MoreSamples.w_missing_date)))
     1 0 = "").
Proof.
  split; [exact sample_missing_date|].
  destruct (sync_raise_destination Sample.to_mdY _ _ _ sample_missing_date
              ltac:(discriminate) ltac:(discriminate))
    as [H|[_ H]]; [left; exact H | right; apply H].
Defined.

Lemma sync_blank_sheet_witness :
  nrows (progress_sheet MoreSamples.w_blank) = 0 /\
  exists e, sync Sample.to_mdY MoreSamples.w_blank = (Raise e, MoreSamples.w_blank).
Proof.
  split; [reflexivity|].
  exact (sync_blank_sheet Sample.to_mdY MoreSamples.w_blank
           (or_intror eq_refl)).
Defined.

Lemma trim_logs_bound_witness :
  log_txt Sample.w = Some Sample.log25 /\
  exists content',
    trim_logs Sample.w = (Ok tt, set_log content' Sample.w) /\
    List.length (Py.readlines content') <= 20.
Proof.
  split; [reflexivity|].
  destruct (proj1 (trim_logs_bound Sample.w) Sample.log25 eq_refl)
    as (content' & Hrun & Hlen & _).
  exists content'. split; [exact Hrun | exact Hlen].
Defined.

Lemma sample_empty_log :
  add_log_to_readme MoreSamples.w_empty_log
  = (Raise IndexError, snd (add_log_to_readme MoreSamples.w_empty_log)).
Proof. vm_compute. reflexivity. Qed.

Lemma add_log_to_readme_raise_witness :
  add_log_to_readme MoreSamples.w_empty_log
  = (Raise IndexError, snd (add_log_to_readme MoreSamples.w_empty_log)) /\
  snd (add_log_to_readme MoreSamples.w_empty_log) = MoreSamples.w_empty_log.
Proof.
  split; [exact sample_empty_log|].
  exact (proj1 (add_log_to_readme_raise _ _ _ sample_empty_log)).
Defined.

Lemma sample_mirrored :
  add_log_to_readme Sample.w_entry = (Ok tt, Sample.mirrored).
Proof. vm_compute. reflexivity. Qed.

Lemma add_log_to_readme_twice_witness :
  add_log_to_readme Sample.w_entry = (Ok tt, Sample.mirrored) /\
  add_log_to_readme Sample.mirrored = (Ok tt, Sample.mirrored).
Proof.
  split; [exact sample_mirrored|].
  exact (add_log_to_readme_twice _ _ sample_mirrored).
Defined.

Lemma sample_log_lines :
  Forall (fun l => terminated l = true)
    (Py.readlines (match log_txt Sample.w with Some s => s | None => "" end)).
Proof. vm_compute. repeat constructor. Qed.

Lemma main_status_line_witness :
  readme_md Sample.w = Some Sample.status /\
  exists readme',
    readme_md (snd (main Sample.to_mdY Sample.w)) = Some readme' /\
    Py.get_last (Py.readlines readme')
    = Ok "- 2024-01-01 10:00:00,123 UTC: Job successfully completed".
Proof.
  split; [reflexivity|].
  destruct (main_status_line Sample.to_mdY Sample.w Sample.status eq_refl
              ltac:(discriminate) sample_log_lines eq_refl eq_refl)
    as (readme' & _ & Hr & Hlast).
  exists readme'. split; [exact Hr|]. rewrite Hlast. vm_compute. reflexivity.
Defined.
